(** * Biometric Sentry dashboard: occupancy, attendance, query translation
      and the generative client, embedded from the JavaScript sources.

    - [App]         : web_dashboard/src/App.jsx (helpers and aggregators)
    - [GeminiApi]   : web_dashboard/src/geminiApi.js
    - [RagAnalyzer] : web_dashboard/src/ragAnalyzer.js
    - [AppComponent]: web_dashboard/src/App.jsx (fetch helpers, component
                      state, handlers and rendering)

    Conventions of the embedding.
    - A JS string is a [string] whose characters are code units below 256.
    - A JS integer-valued number is a [Z]; a time value that may be [NaN]
      is an [option Z]; the fractional minute total is an exact rational
      [Q], so the rounding of double arithmetic is not modelled.
    - [null]/[undefined] fields are [None].
    - The aggregators of [App] read a roll number through
      [String(ev.roll_no)] only, so [App.log] holds that string image;
      the component also tests its truthiness, so [AppComponent.log_row]
      holds the delivered value and [AppComponent.to_log] its image.
    - A JS [Set] is a [gset], a JS [Map] is a [gmap].
    - [Math.random], [fetch] and the Supabase client are oracles passed in
      explicitly; what the code does with their answers is the code's. *)

From Stdlib Require Import ZArith QArith Qround Qminmax List Ascii String.
From Stdlib Require Import DecimalString Lqa.
From stdpp Require Import base decidable option list gmap strings.

Local Open Scope string_scope.
Local Open Scope Z_scope.

(* ===================================================================== *)
(** ** JavaScript string primitives used by the sources *)
(* ===================================================================== *)

Module JsString.

(** [String.prototype.toLowerCase] on code units below 256: A-Z and the
    Latin-1 capitals (0xC0-0xDE except the multiplication sign 0xD7). *)
Definition lower_char (c : ascii) : ascii :=
  let n := nat_of_ascii c in
  if ((65 <=? n) && (n <=? 90))%nat then ascii_of_nat (n + 32)
  else if ((192 <=? n) && (n <=? 222) && negb (n =? 215))%nat
       then ascii_of_nat (n + 32)
  else c.

Fixpoint toLowerCase (s : string) : string :=
  match s with
  | EmptyString => EmptyString
  | String c s' => String (lower_char c) (toLowerCase s')
  end.

(** [s.startsWith(p)] *)
Fixpoint startsWith (p s : string) : bool :=
  match p, s with
  | EmptyString, _ => true
  | String a p', String b s' => if Ascii.eqb a b then startsWith p' s' else false
  | String _ _, EmptyString => false
  end.

(** [s.includes(p)]: [p] occurs in [s] as a contiguous substring. *)
Fixpoint includes (s p : string) : bool :=
  startsWith p s ||
  match s with
  | EmptyString => false
  | String _ s' => includes s' p
  end.

(** White space recognised by [trim] among code units below 256:
    TAB, LF, VT, FF, CR, SPACE and NBSP. *)
Definition is_space (c : ascii) : bool :=
  let n := nat_of_ascii c in
  ((9 <=? n) && (n <=? 13) || (n =? 32) || (n =? 160))%nat.

Fixpoint trimStart (s : string) : string :=
  match s with
  | EmptyString => EmptyString
  | String c s' => if is_space c then trimStart s' else s
  end.

(** [trimEnd] keeps a character when it is not white space or when
    something survives to its right. *)
Fixpoint trimEnd (s : string) : string :=
  match s with
  | EmptyString => EmptyString
  | String c s' =>
      match trimEnd s' with
      | EmptyString => if is_space c then EmptyString else String c EmptyString
      | rest => String c rest
      end
  end.

Definition trim (s : string) : string := trimEnd (trimStart s).

(** Truthiness of a string-or-null value: [null], [undefined] and the
    empty string are falsy. *)
Definition truthy (v : option string) : bool :=
  match v with
  | None => false
  | Some s => negb (String.eqb s "")
  end.

(** [`${n}`] for an integer-valued number. *)
Definition of_Z (n : Z) : string := NilZero.string_of_int (Z.to_int n).

End JsString.

(* ===================================================================== *)
(** ** App.jsx *)
(* ===================================================================== *)

Module App.

(** A row of [attendance_logs(roll_no, event_type, timestamp, is_spoof,
    evidence_url)] as the store delivers it. *)
Record log : Type := mkLog {
  roll_no : option string;
  event_type : string;
  timestamp : option string;
  is_spoof : bool;
  evidence_url : option string
}.

(** *** Occupancy *)

(** [computeDelta(currentOccupancy, row)]; a missing row is [None]. *)
Definition computeDelta (currentOccupancy : Z) (row : option log) : Z :=
  match row with
  | None => currentOccupancy
  | Some row =>
      if String.eqb (event_type row) "ENTRY" then currentOccupancy + 1
      else if String.eqb (event_type row) "EXIT" then Z.max 0 (currentOccupancy - 1)
      else currentOccupancy
  end.

(** Body of the [forEach] of [computeOccupancyFromLogs]: two
    independent [if]s on the accumulator [e]. *)
Definition occupancy_step (e : Z) (r : log) : Z :=
  let e := if String.eqb (event_type r) "ENTRY" then e + 1 else e in
  let e := if String.eqb (event_type r) "EXIT" then e - 1 else e in
  e.

(** The accumulator [e] after the scan. *)
Definition occupancy_scan (logs : list log) : Z :=
  fold_left occupancy_step logs 0.

(** [computeOccupancyFromLogs(logs)]: the value handed to
    [setOccupancy]. *)
Definition computeOccupancyFromLogs (logs : list log) : Z :=
  Z.max 0 (occupancy_scan logs).

(** The live-notification path: [setEvents] prepends the row and keeps
    100, [setOccupancy] applies [computeDelta]. *)
Definition on_insert (st : list log * Z) (newRow : log) : list log * Z :=
  (take 100 (newRow :: fst st), computeDelta (snd st) (Some newRow)).

(** *** Unique-in and intruder counts *)

(** [hasRoll]: the roll number is neither [null]/[undefined] nor blank. *)
Definition hasRoll (ev : log) : bool :=
  match roll_no ev with
  | None => false
  | Some r => negb (String.eqb (JsString.trim r) "")
  end.

(** A value returned by [Math.random()]. Two draws are the same [Set]
    key exactly when they are the same number. *)
Definition draw : Type := N.

(** A key of [intruderSeen]: a string (evidence URL or timestamp) or a
    random number; a string never equals a number in a [Set]. *)
Definition key : Type := string + draw.

(** Loop state of [computeUniqueInAndIntruders]; [draws] counts the
    calls made to [Math.random] so far. *)
Record scan : Type := mkScan {
  rollLatest : gmap string string;
  intruderSeen : gset key;
  draws : nat
}.

Definition scan0 : scan :=
  {| rollLatest := ∅; intruderSeen := ∅; draws := 0 |}.

Record counts : Type := mkCounts { uniqueIn : nat; intruderCount : nat }.

Section WithRandom.
(** The successive results of [Math.random()]. *)
Variable random : nat -> draw.

(** [ev.evidence_url || ev.timestamp || Math.random()], with the
    number of draws it consumed (the right operand of [||] is only
    evaluated when the left one is falsy). *)
Definition intruder_key (ev : log) (n : nat) : key * nat :=
  if JsString.truthy (evidence_url ev) then (inl (default "" (evidence_url ev)), n)
  else if JsString.truthy (timestamp ev) then (inl (default "" (timestamp ev)), n)
  else (inr (random n), S n).

(** Body of the [for (const ev of logs)] loop. *)
Definition scan_step (st : scan) (ev : log) : scan :=
  if hasRoll ev then
    let r := default "" (roll_no ev) in
    if decide (is_Some (rollLatest st !! r)) then st
    else {| rollLatest := <[r := event_type ev]> (rollLatest st);
            intruderSeen := intruderSeen st;
            draws := draws st |}
  else
    let '(k, n) := intruder_key ev (draws st) in
    if negb (bool_decide (k ∈ intruderSeen st)) && String.eqb (event_type ev) "ENTRY"
    then {| rollLatest := rollLatest st;
            intruderSeen := {[ k ]} ∪ intruderSeen st;
            draws := n |}
    else {| rollLatest := rollLatest st;
            intruderSeen := intruderSeen st;
            draws := n |}.

Definition scan_logs (logs : list log) : scan :=
  fold_left scan_step logs scan0.

(** [computeUniqueInAndIntruders(logs)] *)
Definition computeUniqueInAndIntruders (logs : list log) : counts :=
  match logs with
  | [] => {| uniqueIn := 0; intruderCount := 0 |}
  | _ =>
      let st := scan_logs logs in
      {| uniqueIn := size (filter (fun kv => snd kv = "ENTRY") (rollLatest st));
         intruderCount := size (intruderSeen st) |}
  end.
End WithRandom.

(** *** Attendance duration *)

(** What the store answers to the query of [calculateStudentAttendance];
    the client may also reject, which the [try] catches. *)
Inductive query_result : Type :=
| QueryThrows
| QueryAnswer (data : option (list log)) (error : option string).

Record attendance : Type := mkAttendance { duration : string; percentage : string }.

(** State of the pairing loop. [entryTime] is [None] for [null] and
    [Some t] for a time value, [t = None] being [NaN]. *)
Record pairing : Type := mkPairing {
  totalDurationMinutes : Q;
  entryTime : option (option Z)
}.

Definition pairing0 : pairing :=
  {| totalDurationMinutes := 0%Q; entryTime := None |}.

(** [x % m] of JavaScript: the remainder has the sign of the dividend. *)
Definition js_rem (x m : Q) : Q :=
  let q := (x / m)%Q in
  let t := if Qle_bool 0 q then Qfloor q else Qceiling q in
  (x - m * inject_Z t)%Q.

(** [Math.round]: nearest integer, ties towards +infinity. *)
Definition Math_round (x : Q) : Z := Qfloor (x + (1 # 2))%Q.

(** [x.toFixed(1)] for [0 <= x]: the nearest number of tenths, the
    larger one on a tie. *)
Definition tenths (x : Q) : Z := Qfloor (x * 10 + (1 # 2))%Q.

Definition toFixed1 (x : Q) : string :=
  JsString.of_Z (tenths x / 10) +:+ "." +:+ JsString.of_Z (tenths x mod 10).

Definition TOTAL_SCHEDULED_MINUTES : Q := 480%Q.

(** [Math.min(100, (totalDurationMinutes / TOTAL_SCHEDULED_MINUTES) * 100)] *)
Definition percentage_value (total : Q) : Q :=
  Qmin 100 ((total / TOTAL_SCHEDULED_MINUTES) * 100)%Q.

Definition durationString (total : Q) : string :=
  let hours := Qfloor (total / 60)%Q in
  let minutes := Math_round (js_rem total 60) in
  JsString.of_Z hours +:+ "h " +:+ JsString.of_Z minutes +:+ "m".

Section WithDate.
(** [new Date(v).getTime()]: epoch milliseconds, [None] for [NaN]. *)
Variable Date_getTime : option string -> option Z.

(** Body of [logs.forEach] in [calculateStudentAttendance]. *)
Definition pairing_step (st : pairing) (l : log) : pairing :=
  let logTime := Date_getTime (timestamp l) in
  if String.eqb (event_type l) "ENTRY" then
    match entryTime st with
    | None => {| totalDurationMinutes := totalDurationMinutes st;
                 entryTime := Some logTime |}
    | Some _ => st
    end
  else if String.eqb (event_type l) "EXIT" then
    match entryTime st, logTime with
    | Some (Some entry), Some exit =>
        if entry <? exit then
          {| totalDurationMinutes :=
               (totalDurationMinutes st + inject_Z (exit - entry) / 60000)%Q;
             entryTime := None |}
        else st
    | _, _ => st
    end
  else st.

Definition pair_logs (logs : list log) : pairing :=
  fold_left pairing_step logs pairing0.

(** The computation after the guards (lines 94-118). *)
Definition summarize (logs : list log) : attendance :=
  let total := totalDurationMinutes (pair_logs logs) in
  {| duration := durationString total;
     percentage := toFixed1 (percentage_value total) +:+ "%" |}.

(** [calculateStudentAttendance(rollNo, allStudentsMap)]. [supabase]
    is [None] when the client was not configured, otherwise it is the
    answer of the store to the query for [rollNo]. *)
Definition calculateStudentAttendance
    (supabase : option (string -> query_result)) (rollNo : string) : attendance :=
  match supabase with
  | None => {| duration := "N/A"; percentage := "—" |}
  | Some select =>
      if String.eqb rollNo "" then {| duration := "N/A"; percentage := "—" |}
      else
        match select rollNo with
        | QueryThrows => {| duration := "Fail"; percentage := "—" |}
        | QueryAnswer _ (Some _) => {| duration := "DB Error"; percentage := "—" |}
        | QueryAnswer None None => {| duration := "0h 0m"; percentage := "0%" |}
        | QueryAnswer (Some []) None => {| duration := "0h 0m"; percentage := "0%" |}
        | QueryAnswer (Some logs) None => summarize logs
        end
  end.
End WithDate.

End App.

(* ===================================================================== *)
(** ** geminiApi.js *)
(* ===================================================================== *)

Module GeminiApi.

(** What [await response.json()] followed by
    [result.candidates?.[0]?.content?.parts?.[0]?.text] can do: the
    parse rejects, the parsed value is [null] (reading [.candidates]
    throws), or the chain yields a text or [undefined]. *)
Inductive json_body : Type :=
| JsonRejects
| JsonNull
| JsonText (text : option string).

Record response : Type := mkResponse { status : Z; body : json_body }.

(** [response.ok]: the status is in the range 200-299. *)
Definition ok (r : response) : bool :=
  (200 <=? status r) && (status r <=? 299).

Inductive fetch_result : Type :=
| FetchRejects
| FetchResolves (r : response).

Inductive exn : Type :=
| NetworkError
| SyntaxError
| TypeError
| ApiError (status : Z)
| EmptyResponse.

(** Observable actions, in program order. *)
Inductive effect : Type :=
| Fetch (attempt : nat) (systemInstruction userQuery : string)
| SleepBackoff (attempt : nat)   (* 2^attempt * 1000 + Math.random() * 1000 ms *)
| SleepFixed                     (* 2000 ms *)
| ConsoleError.

Inductive completion (A : Type) : Type :=
| Normal (a : A)
| Throw (e : exn).
Arguments Normal {A} a.
Arguments Throw {A} e.

(** Computations that log their effects and may throw. *)
Definition M (A : Type) : Type := list effect -> completion A * list effect.

Definition ret {A} (a : A) : M A := fun log => (Normal a, log).

Definition throw {A} (e : exn) : M A := fun log => (Throw e, log).

Definition bind {A B} (m : M A) (k : A -> M B) : M B :=
  fun log =>
    match m log with
    | (Normal a, log') => k a log'
    | (Throw e, log') => (Throw e, log')
    end.

Definition emit (e : effect) : M unit := fun log => (Normal tt, (log ++ [e])%list).

(** [try { m } catch (error) { h error }] *)
Definition try_catch {A} (m : M A) (h : exn -> M A) : M A :=
  fun log =>
    match m log with
    | (Normal a, log') => (Normal a, log')
    | (Throw e, log') => h e log'
    end.

Notation "x <- m ;; k" := (bind m (fun x => k))
  (at level 100, m at next level, right associativity).
Notation "m ;;; k" := (bind m (fun _ => k))
  (at level 100, right associativity).

(** How one turn of the [for] loop ends: by [return] or by going on to
    the next attempt. *)
Inductive turn : Type :=
| Return (s : string)
| NextAttempt.

Definition MISSING_KEY : string :=
  "Error: AI Assistant is offline (Missing API Key).".
Definition FAILED_AFTER_RETRIES : string :=
  "Error: AI Assistant failed to process the request after multiple retries.".
Definition FAILED : string :=
  "Error: AI Assistant failed to process the request.".

Section WithNetwork.
(** The outcome of the [fetch] of each attempt. *)
Variable network : nat -> fetch_result.

Definition fetch (attempt : nat) (systemInstruction userQuery : string) : M response :=
  emit (Fetch attempt systemInstruction userQuery) ;;;
  match network attempt with
  | FetchRejects => throw NetworkError
  | FetchResolves r => ret r
  end.

(** [await response.json()] *)
Definition json (r : response) : M json_body :=
  match body r with
  | JsonRejects => throw SyntaxError
  | b => ret b
  end.

(** [result.candidates?.[0]?.content?.parts?.[0]?.text] *)
Definition candidate_text (result : json_body) : M (option string) :=
  match result with
  | JsonText t => ret t
  | _ => throw TypeError
  end.

(** The [try] block of one attempt. *)
Definition try_block (attempt : nat) (systemInstruction userQuery : string) : M turn :=
  response <- fetch attempt systemInstruction userQuery ;;
  if status response =? 429 then
    emit (SleepBackoff attempt) ;;;
    ret NextAttempt
  else if negb (ok response) then
    errorBody <- json response ;;
    throw (ApiError (status response))
  else
    result <- json response ;;
    generatedText <- candidate_text result ;;
    if JsString.truthy generatedText
    then ret (Return (default "" generatedText))
    else throw EmptyResponse.

(** The [catch] block. *)
Definition catch_block (maxRetries attempt : nat) (error : exn) : M turn :=
  emit ConsoleError ;;;
  if Nat.eqb attempt (maxRetries - 1) then ret (Return FAILED_AFTER_RETRIES)
  else emit SleepFixed ;;; ret NextAttempt.

(** [for (let attempt = 0; attempt < maxRetries; attempt++)], with
    [remaining = maxRetries - attempt] turns left, and the [return]
    that follows the loop. *)
Fixpoint attempts (maxRetries remaining attempt : nat)
    (systemInstruction userQuery : string) : M string :=
  match remaining with
  | O => ret FAILED
  | S remaining' =>
      t <- try_catch (try_block attempt systemInstruction userQuery)
                     (catch_block maxRetries attempt) ;;
      match t with
      | Return s => ret s
      | NextAttempt =>
          attempts maxRetries remaining' (S attempt) systemInstruction userQuery
      end
  end.

(** [generateContent(systemInstruction, userQuery, maxRetries = 3)] *)
Definition generateContent (API_KEY systemInstruction userQuery : string)
    (maxRetries : nat) : M string :=
  if String.eqb API_KEY "" then
    emit ConsoleError ;;;
    ret MISSING_KEY
  else attempts maxRetries maxRetries 0 systemInstruction userQuery.

End WithNetwork.

End GeminiApi.

(* ===================================================================== *)
(** ** ragAnalyzer.js *)
(* ===================================================================== *)

Module RagAnalyzer.
Import GeminiApi.

(** The filters chained on the query builder. *)
Inductive filter : Type :=
| Eq_bool (column : string) (value : bool)       (* .eq("is_spoof", true) *)
| Is_null (column : string)                      (* .is("roll_no", null) *)
| In_set (column : string) (values : list string) (* .in("roll_no", roll_nos) *)
| Gte (column : string) (value : string).        (* .gte("timestamp", today) *)

(** A row answered by [from("students").select("roll_no")]; a column
    that was not selected reads as [undefined]. *)
Record student : Type := mkStudent {
  roll_no : string;
  full_name : option string
}.

(** The two reads made through the Supabase client. *)
Record client : Type := mkClient {
  (* data of from("students").select("roll_no").ilike("full_name", pattern) *)
  students_ilike : string -> option (list student);
  (* data and error of the filtered attendance_logs query, newest first *)
  logs_select : list filter -> option (list App.log) * option string
}.

Inductive action : Type :=
| SelectStudents (pattern : string)
| SelectLogs (queryBuilder : list filter)
| CallGenerateContent (systemInstruction userQuery : string).

Definition ANALYST_PROMPT : string :=
  "You are a specialized security and attendance analyst named 'The Sentry AI'. Your task is to analyze the provided raw attendance data (which is in JSON format) and answer the user's question clearly and conversationally. Do not include the raw JSON data in your final answer. State the total number of threats found.".

(** [`${v}`] for a string that may be [undefined]. *)
Definition template (v : option string) : string := default "undefined" v.

(** Result of the query translation (steps A-D): an early "not found"
    reply, or the built query with its label. *)
Inductive translation : Type :=
| NotFound (reply : string)
| Built (queryBuilder : list filter) (dataLabel : string).

Definition mentions (userQuestion word : string) : bool :=
  JsString.includes (JsString.toLowerCase userQuestion) word.

Definition not_found_reply (namePart : string) : string :=
  "AI Assistant: I cannot find activity logs for '" +:+ namePart +:+
  "'. Please check the name or Roll Number.".

Section WithEnvironment.
(** [new Date().toISOString().split("T")[0]] *)
Variable today : string.
Variable JSON_stringify : list App.log -> string.
(** The imported [generateContent], with its default [maxRetries]. *)
Variable generateContent : string -> string -> completion string.

(** Lines 27-86: keyword rules A-D. The state threaded through is
    [(queryBuilder, dataLabel, filterApplied)]. *)
Definition translate (supabaseClient : client) (userQuestion : string)
    : translation * list action :=
  let queryBuilder : list filter := [] in
  let dataLabel := "Attendance Logs" in
  let filterApplied := false in
  (* A. proxies *)
  let '(queryBuilder, dataLabel, filterApplied) :=
    if mentions userQuestion "proxy" || mentions userQuestion "proxies"
    then ((queryBuilder ++ [Eq_bool "is_spoof" true])%list, "Proxy Attempts", true)
    else (queryBuilder, dataLabel, filterApplied) in
  (* B. intruders *)
  let '(queryBuilder, dataLabel, filterApplied) :=
    if mentions userQuestion "intruder" || mentions userQuestion "intruders"
    then ((queryBuilder ++ [Is_null "roll_no"])%list, "Intruder Sightings", true)
    else (queryBuilder, dataLabel, filterApplied) in
  (* D. time constraint, as a continuation of step C *)
  let time_constraint '(queryBuilder, dataLabel, filterApplied) :=
    if negb filterApplied || mentions userQuestion "today"
    then Built (queryBuilder ++ [Gte "timestamp" today])%list (dataLabel +:+ " (Today)")
    else Built queryBuilder dataLabel in
  (* C. specific student *)
  if mentions userQuestion "ashraf" || mentions userQuestion "mahaboob" then
    let namePart := if mentions userQuestion "ashraf" then "ashraf" else "mahaboob" in
    let pattern := "%" +:+ namePart +:+ "%" in
    let studentData := students_ilike supabaseClient pattern in
    match studentData with
    | Some (first :: rest) =>
        let roll_nos := map roll_no (first :: rest) in
        (time_constraint
           ((queryBuilder ++ [In_set "roll_no" roll_nos])%list,
            template (full_name first) +:+ "'s Activity",
            true),
         [SelectStudents pattern])
    | _ =>
        if negb filterApplied
        then (NotFound (not_found_reply namePart), [SelectStudents pattern])
        else (time_constraint (queryBuilder, dataLabel, filterApplied),
              [SelectStudents pattern])
    end
  else (time_constraint (queryBuilder, dataLabel, filterApplied), []).

(** Lines 88-117: retrieval, augmentation, generation. *)
Definition retrieve_and_generate (supabaseClient : client) (userQuestion : string)
    (queryBuilder : list filter) (dataLabel : string)
    : completion string * list action :=
  match logs_select supabaseClient queryBuilder with
  | (_, Some dbError) =>
      (Normal "AI Assistant: A database error occurred during data retrieval.",
       [SelectLogs queryBuilder])
  | (None, None) | (Some [], None) =>
      (Normal ("AI Assistant: No " +:+ dataLabel +:+
               " found in the logs matching your criteria."),
       [SelectLogs queryBuilder])
  | (Some rawData, None) =>
      let userQueryWithContext :=
        "User Question: " +:+ String (ascii_of_nat 34) userQuestion +:+
        String (ascii_of_nat 34) ". Data Retrieved (" +:+
        JsString.of_Z (Z.of_nat (length rawData)) +:+ " records for " +:+
        dataLabel +:+ "): " +:+ JSON_stringify rawData in
      (match generateContent ANALYST_PROMPT userQueryWithContext with
       | Normal aiResponse => Normal ("AI Assistant: " +:+ aiResponse)
       | Throw e => Throw e
       end,
       [SelectLogs queryBuilder;
        CallGenerateContent ANALYST_PROMPT userQueryWithContext])
  end.

(** [runRAGAnalysis(supabaseClient, userQuestion)]: the reply and the
    actions performed, in order. *)
Definition runRAGAnalysis (supabaseClient : option client) (userQuestion : string)
    : completion string * list action :=
  match supabaseClient with
  | None =>
      (Normal "Error: Database connection is offline. Cannot perform RAG analysis.", [])
  | Some c =>
      match translate c userQuestion with
      | (NotFound reply, acts) => (Normal reply, acts)
      | (Built queryBuilder dataLabel, acts) =>
          let '(r, acts') := retrieve_and_generate c userQuestion queryBuilder dataLabel in
          (r, (acts ++ acts')%list)
      end
  end.
End WithEnvironment.

End RagAnalyzer.

(* ===================================================================== *)
(** ** App.jsx: fetch helpers, component state, handlers and rendering *)
(* ===================================================================== *)

Module AppComponent.
Import App.

(** *** The student directory, a plain object keyed by roll number *)

(** What reading a property of the directory can give: [undefined],
    [null], a string, or something inherited from [Object.prototype]
    (a function or the prototype object itself, always truthy). *)
Inductive js_value : Type :=
| Undefined
| Null
| Str (s : string)
| Inherited.

Definition value_truthy (v : js_value) : bool :=
  match v with
  | Str s => negb (String.eqb s "")
  | Inherited => true
  | Undefined | Null => false
  end.

(** The property names every plain object inherits. *)
Definition Object_prototype_names : list string :=
  ["constructor"; "hasOwnProperty"; "isPrototypeOf"; "propertyIsEnumerable";
   "toLocaleString"; "toString"; "valueOf"; "__proto__";
   "__defineGetter__"; "__defineSetter__"; "__lookupGetter__"; "__lookupSetter__"].

(** An object created by [{}] and filled by assignments of strings or
    [null]: its own properties, and whether an assignment of [null] to
    [__proto__] has removed its prototype. *)
Record directory : Type := mkDirectory {
  own : gmap string (option string);
  proto_null : bool
}.

Definition empty_directory : directory := {| own := ∅; proto_null := false |}.

(** [map[k] = v]. While the prototype is in place, assigning to
    [__proto__] runs the inherited setter: a string is ignored and [null]
    removes the prototype. *)
Definition obj_set (map : directory) (k : string) (v : option string) : directory :=
  if String.eqb k "__proto__" && negb (proto_null map) then
    match v with
    | None => {| own := own map; proto_null := true |}
    | Some _ => map
    end
  else {| own := <[k := v]> (own map); proto_null := proto_null map |}.

(** [map[k]] *)
Definition obj_get (map : directory) (k : string) : js_value :=
  match own map !! k with
  | Some (Some s) => Str s
  | Some None => Null
  | None =>
      if negb (proto_null map) && bool_decide (k ∈ Object_prototype_names)
      then Inherited
      else Undefined
  end.

(** *** Rows as the store delivers them *)

(** The [roll_no] field of a delivered row. The component reads it
    through four operations only: the tests against [null] and
    [undefined], its truthiness ([!l.roll_no], [ev.roll_no && ...]),
    [String(ev.roll_no)], and its use as a property key (which converts
    with the same string image). A value that is neither absent nor a
    string (a number, a boolean) is therefore given by its truthiness
    and its [String] image: the number 0 is [RollOther false "0"], the
    number 21 is [RollOther true "21"], [false] is
    [RollOther false "false"]. *)
Inductive roll_value : Type :=
| RollNull
| RollString (s : string)
| RollOther (truthy : bool) (image : string).

(** The roll value of a numeric column holding the integer [n]. *)
Definition roll_of_number (n : Z) : roll_value :=
  RollOther (negb (n =? 0)) (JsString.of_Z n).

(** Truthiness of the field: [null], [undefined] and the empty string
    are falsy. *)
Definition roll_truthy (v : roll_value) : bool :=
  match v with
  | RollNull => false
  | RollString s => negb (String.eqb s "")
  | RollOther truthy _ => truthy
  end.

(** [String(ev.roll_no)] for a value that is not absent. *)
Definition roll_String (v : roll_value) : option string :=
  match v with
  | RollNull => None
  | RollString s => Some s
  | RollOther _ image => Some image
  end.

Record log_row : Type := mkRow {
  row_roll_no : roll_value;
  row_event_type : string;
  row_timestamp : option string;
  row_is_spoof : bool;
  row_evidence_url : option string
}.

(** The row as [computeDelta], [computeOccupancyFromLogs] and
    [computeUniqueInAndIntruders] read it: they reach the roll number
    only through a [null] test and [String(ev.roll_no)]. *)
Definition to_log (r : log_row) : log :=
  {| roll_no := roll_String (row_roll_no r);
     event_type := row_event_type r;
     timestamp := row_timestamp r;
     is_spoof := row_is_spoof r;
     evidence_url := row_evidence_url r |}.

(** *** The store client *)

(** A row of [students(roll_no, full_name)]. *)
Record student_row : Type := mkStudentRow {
  s_roll_no : string;
  s_full_name : option string
}.

Inductive students_result : Type :=
| StudentsThrows
| StudentsAnswer (data : option (list student_row)) (error : option string).

Inductive rows_result : Type :=
| RowsThrow
| RowsAnswer (data : option (list log_row)) (error : option string).

(** The reads the component makes through [supabase]: the directory, the
    last rows (the store applies the order and the limit), the rows of
    one student, and the reads of the assistant. *)
Record store : Type := mkStore {
  select_students : students_result;
  select_last_logs : Z -> rows_result;
  select_attendance : string -> query_result;
  rag_client : RagAnalyzer.client
}.

(** [fetchStudents()] *)
Definition fetchStudents (supabase : option store) : directory :=
  match supabase with
  | None => empty_directory
  | Some db =>
      match select_students db with
      | StudentsThrows => empty_directory
      | StudentsAnswer _ (Some _) => empty_directory
      | StudentsAnswer data None =>
          fold_left (fun map s => obj_set map (s_roll_no s) (s_full_name s))
                    (default [] data) empty_directory
      end
  end.

(** [fetchLastLogs(limit = 20)] *)
Definition fetchLastLogs (supabase : option store) (limit : Z) : list log_row :=
  match supabase with
  | None => []
  | Some db =>
      match select_last_logs db limit with
      | RowsThrow => []
      | RowsAnswer _ (Some _) => []
      | RowsAnswer data None => default [] data
      end
  end.

(** *** Feed state: [studentsMap], [events], [occupancy], [gallery] *)

Record feed : Type := mkFeed {
  studentsMap : directory;
  events : list log_row;
  occupancy : Z;
  gallery : list log_row
}.

(** The [useState] defaults. *)
Definition feed0 : feed :=
  {| studentsMap := empty_directory; events := []; occupancy := 0; gallery := [] |}.

(** The gallery filter of the initial load:
    [(l.is_spoof || !l.roll_no) && l.evidence_url]. *)
Definition initial_admits (l : log_row) : bool :=
  (row_is_spoof l || negb (roll_truthy (row_roll_no l)))
  && JsString.truthy (row_evidence_url l).

(** [hasRollNew] of the live callback: [newRow.roll_no !== null &&
    newRow.roll_no !== undefined && String(newRow.roll_no).trim() !== ""]. *)
Definition hasRollNew (newRow : log_row) : bool :=
  match roll_String (row_roll_no newRow) with
  | None => false
  | Some r => negb (String.eqb (JsString.trim r) "")
  end.

(** The gallery test of the live callback:
    [(newRow.is_spoof || !hasRollNew) && newRow.evidence_url]. *)
Definition live_admits (newRow : log_row) : bool :=
  (row_is_spoof newRow || negb (hasRollNew newRow))
  && JsString.truthy (row_evidence_url newRow).

(** The asynchronous block of [useEffect], once both fetches have
    resolved; [mounted] is [mounted.current] at that moment. *)
Definition initial_load (supabase : option store) (mounted : bool) (st : feed) : feed :=
  let map := fetchStudents supabase in
  let logs := fetchLastLogs supabase 20 in
  if negb mounted then st
  else {| studentsMap := map;
          events := logs;
          occupancy := computeOccupancyFromLogs (List.map to_log logs);
          gallery := take 8 (List.filter initial_admits logs) |}.

(** The callback of the INSERT subscription. *)
Definition on_notification (st : feed) (newRow : log_row) : feed :=
  {| studentsMap := studentsMap st;
     events := take 100 (newRow :: events st);
     occupancy := computeDelta (occupancy st) (Some (to_log newRow));
     gallery := if live_admits newRow then take 8 (newRow :: gallery st)
                else gallery st |}.

(** What happens to the feed state, in order. *)
Inductive happening : Type :=
| Loaded (supabase : option store) (mounted : bool)
| Inserted (newRow : log_row).

Definition happen (st : feed) (h : happening) : feed :=
  match h with
  | Loaded supabase mounted => initial_load supabase mounted st
  | Inserted newRow => on_notification st newRow
  end.

Definition run (hs : list happening) : feed := fold_left happen hs feed0.

(** *** Rendering *)

(** [hasRoll] as the feed writes it:
    [ev.roll_no && String(ev.roll_no).trim() !== ""]. *)
Definition feed_hasRoll (ev : log_row) : bool :=
  roll_truthy (row_roll_no ev) &&
  negb (String.eqb (JsString.trim (default "" (roll_String (row_roll_no ev)))) "").

Inductive icon : Type := Users | XCircle | AlertTriangle | CheckCircle.

(** [hasRoll ? studentsMap[ev.roll_no] || ev.roll_no : "UNKNOWN"]: the
    directory entry, the roll number itself, or the text UNKNOWN. *)
Inductive shown_name : Type :=
| DirectoryName (v : js_value)
| OwnRoll (v : roll_value)
| UnknownName.

Record feed_item : Type := mkFeedItem {
  item_name : shown_name;
  item_badge : option string;
  item_icon : icon;
  item_border : string;
  item_evidence : option string
}.

(** One row of the live feed ([events.slice(0, 20).map]). *)
Definition feed_row (map : directory) (ev : log_row) : feed_item :=
  let hasRoll := feed_hasRoll ev in
  let isSpoof := row_is_spoof ev in
  let name :=
    if hasRoll then
      let r := default "" (roll_String (row_roll_no ev)) in
      if value_truthy (obj_get map r) then DirectoryName (obj_get map r)
      else OwnRoll (row_roll_no ev)
    else UnknownName in
  let evidence :=
    if (isSpoof || negb hasRoll) && JsString.truthy (row_evidence_url ev)
    then row_evidence_url ev else None in
  if isSpoof then
    {| item_name := name; item_badge := Some "PROXY"; item_icon := XCircle;
       item_border := "border-l-red-500"; item_evidence := evidence |}
  else if negb hasRoll then
    {| item_name := name; item_badge := Some "INTRUDER"; item_icon := AlertTriangle;
       item_border := "border-l-amber-500"; item_evidence := evidence |}
  else if String.eqb (row_event_type ev) "ENTRY" then
    {| item_name := name; item_badge := None; item_icon := CheckCircle;
       item_border := "border-l-green-500"; item_evidence := evidence |}
  else
    {| item_name := name; item_badge := None; item_icon := Users;
       item_border := "border-l-slate-500"; item_evidence := evidence |}.

Definition render_feed (st : feed) : list feed_item :=
  List.map (feed_row (studentsMap st)) (take 20 (events st)).

(** A tile of the evidence vault: the image, or the placeholder icon when
    the row has no evidence URL, and the caption. *)
Record tile : Type := mkTile { tile_image : option string; tile_caption : string }.

Definition vault_tile (g : log_row) : tile :=
  {| tile_image := if JsString.truthy (row_evidence_url g) then row_evidence_url g
                   else None;
     tile_caption := if row_is_spoof g then "PROXY" else "INTRUDER" |}.

Definition render_vault (st : feed) : list tile :=
  List.map vault_tile (take 6 (gallery st)).

(** The two counters of the header, computed from the buffered events. *)
Definition render_header (random : nat -> draw) (st : feed) : counts :=
  computeUniqueInAndIntruders random (List.map to_log (events st)).

(** *** Student lookup *)

Record student_info : Type := mkInfo {
  info_roll_no : string;
  info_full_name : js_value;
  attendance_pct : string
}.

Section Handlers.
Variable Date_getTime : option string -> option Z.
Variable today : string.
Variable JSON_stringify : list log -> string.
Variable generateContent : string -> string -> GeminiApi.completion string.

(** [onSearchStudent()], run to completion: the last [studentInfo] set
    (or the previous one when nothing is set) and the roll numbers whose
    attendance rows were requested from the store. *)
Definition onSearchStudent (supabase : option store) (map : directory)
    (searchRoll : string) (studentInfo : option student_info)
    : option student_info * list string :=
  if String.eqb searchRoll "" then (studentInfo, [])
  else
    let name := obj_get map searchRoll in
    if negb (value_truthy name) then
      (Some {| info_roll_no := searchRoll;
               info_full_name := Str "Unknown";
               attendance_pct := "Student Not Enrolled" |}, [])
    else
      let result :=
        calculateStudentAttendance Date_getTime
          (option_map select_attendance supabase) searchRoll in
      (Some {| info_roll_no := searchRoll;
               info_full_name := name;
               attendance_pct := percentage result |},
       match supabase with Some _ => [searchRoll] | None => [] end).

(** *** Assistant *)

Record assistant : Type := mkAssistant {
  assistantQuery : string;
  assistantResponse : string;
  isLoadingAI : bool
}.

Definition assistant0 : assistant :=
  {| assistantQuery := "";
     assistantResponse := "How can I help you analyze the security logs?";
     isLoadingAI := false |}.

(** [onAssistantSend()] up to its [await]: the guard, then the gate is
    taken. [None] when the handler returns at the guard. *)
Definition onAssistantSend_begin (supabase : option store) (st : assistant)
    : option assistant :=
  if String.eqb (assistantQuery st) "" || isLoadingAI st then None
  else match supabase with
       | None => None
       | Some _ =>
           Some {| assistantQuery := assistantQuery st;
                   assistantResponse := "AI: Analyzing database...";
                   isLoadingAI := true |}
       end.

(** [onAssistantSend()] run to completion, with the actions of
    [runRAGAnalysis]; [st] is returned unchanged when the guard stops it. *)
Definition onAssistantSend (supabase : option store) (st : assistant)
    : assistant * list RagAnalyzer.action :=
  match onAssistantSend_begin supabase st with
  | None => (st, [])
  | Some _ =>
      let '(result, acts) :=
        RagAnalyzer.runRAGAnalysis today JSON_stringify generateContent
          (option_map rag_client supabase) (assistantQuery st) in
      ({| assistantQuery := "";
          assistantResponse :=
            match result with
            | GeminiApi.Normal reply => reply
            | GeminiApi.Throw _ => "Error processing AI request."
            end;
          isLoadingAI := false |},
       acts)
  end.
End Handlers.

End AppComponent.

(* ===================================================================== *)
(** ** Notions used in the statements *)
(* ===================================================================== *)

(** None of the definitions below is part of the sources: they name what
    the statements talk about. *)

(** The specification's reading of batch occupancy: number of ENTRY rows
    minus number of EXIT rows, clamped once. *)
Definition count_type (ty : string) (logs : list App.log) : Z :=
  Z.of_nat (length (filter (fun r => App.event_type r = ty) logs)).

Definition signed_sum (logs : list App.log) : Z :=
  count_type "ENTRY" logs - count_type "EXIT" logs.

Definition spec_batch_occupancy (logs : list App.log) : Z :=
  Z.max 0 (signed_sum logs).

(** Occupancy as it would be if every prefix were clamped (what repeated
    [computeDelta] computes from 0). *)
Definition running_clamped (logs : list App.log) : Z :=
  fold_left (fun o r => App.computeDelta o (Some r)) logs 0.

(** The part of the loop state of [computeUniqueInAndIntruders] that
    rows without roll number read and write. *)
Definition anon_part (st : App.scan) : gset App.key * nat :=
  (App.intruderSeen st, App.draws st).

(** The text the [fetch] of an attempt lets [generateContent] return:
    the request resolves, the status is not 429 and is in 200-299, and
    the extracted text is a non-empty string. *)
Definition usable_text (network : nat -> GeminiApi.fetch_result) (attempt : nat)
    : option string :=
  match network attempt with
  | GeminiApi.FetchResolves r =>
      if GeminiApi.status r =? 429 then None
      else if negb (GeminiApi.ok r) then None
      else match GeminiApi.body r with
           | GeminiApi.JsonText (Some t) => if String.eqb t "" then None else Some t
           | _ => None
           end
  | GeminiApi.FetchRejects => None
  end.

Definition is_fetch (e : GeminiApi.effect) : bool :=
  match e with GeminiApi.Fetch _ _ _ => true | _ => false end.

(** Number of [fetch] calls in a log. *)
Definition fetches (log : list GeminiApi.effect) : nat :=
  length (List.filter is_fetch log).

(** Whether the generative client was called. *)
Definition calls_generateContent (acts : list RagAnalyzer.action) : bool :=
  existsb (fun a => match a with
                    | RagAnalyzer.CallGenerateContent _ _ => true
                    | _ => false
                    end) acts.

(** Whether rules 1-3 set a filter for this question: a proxy keyword,
    an intruder keyword, or an alias with at least one directory match. *)
Definition rules_1_3_set_filter (c : RagAnalyzer.client) (userQuestion : string) : bool :=
  RagAnalyzer.mentions userQuestion "proxy" || RagAnalyzer.mentions userQuestion "proxies" ||
  RagAnalyzer.mentions userQuestion "intruder" ||
  RagAnalyzer.mentions userQuestion "intruders" ||
  ((RagAnalyzer.mentions userQuestion "ashraf" ||
    RagAnalyzer.mentions userQuestion "mahaboob") &&
   match RagAnalyzer.students_ilike c
           ("%" +:+ (if RagAnalyzer.mentions userQuestion "ashraf"
                     then "ashraf" else "mahaboob") +:+ "%")
   with
   | Some (_ :: _) => true
   | _ => false
   end).

(** [s] ends with [suffix]: some tail of [s] is [suffix]. *)
Fixpoint endsWith (s suffix : string) : bool :=
  String.eqb s suffix ||
  match s with
  | EmptyString => false
  | String _ s' => endsWith s' suffix
  end.

(** What every reachable feed state satisfies (used as the induction
    invariant). *)
Definition feed_ok (st : AppComponent.feed) : Prop :=
  (length (AppComponent.gallery st) <= 8)%nat
  /\ Forall (fun g => AppComponent.live_admits g = true
                      \/ AppComponent.initial_admits g = true)
            (AppComponent.gallery st)
  /\ 0 <= AppComponent.occupancy st.

(** The event type of the first row of the window that carries roll
    number [r] (the window is newest first, so this is the latest status
    of [r]). *)
Definition first_status (logs : list App.log) (r : string) : option string :=
  App.event_type <$>
    head (filter (fun ev => App.hasRoll ev = true /\ App.roll_no ev = Some r) logs).

(** The string key of a row that has an evidence URL or a timestamp. *)
Definition string_key (ev : App.log) : string :=
  if JsString.truthy (App.evidence_url ev) then default "" (App.evidence_url ev)
  else default "" (App.timestamp ev).

(** The last row of the directory answer that carries roll number [r]. *)
Definition last_row (rows : list AppComponent.student_row) (r : string)
    : option AppComponent.student_row :=
  last (filter (fun s => AppComponent.s_roll_no s = r) rows).

(** What reading [r] gives when its last row is [s]. *)
Definition name_of_row (s : option AppComponent.student_row) : AppComponent.js_value :=
  match s with
  | Some row =>
      match AppComponent.s_full_name row with
      | Some n => AppComponent.Str n
      | None => AppComponent.Null
      end
  | None => AppComponent.Undefined
  end.

(** The first attempt among [count] attempts from [start] on whose
    response carries a usable text, with that text. *)
Fixpoint first_usable (network : nat -> GeminiApi.fetch_result) (start count : nat)
    : option (nat * string) :=
  match count with
  | O => None
  | S count' =>
      match usable_text network start with
      | Some t => Some (start, t)
      | None => first_usable network (S start) count'
      end
  end.

(** Whether the attempt is answered with status 429. *)
Definition rate_limited (network : nat -> GeminiApi.fetch_result) (attempt : nat) : bool :=
  match network attempt with
  | GeminiApi.FetchResolves r => GeminiApi.status r =? 429
  | GeminiApi.FetchRejects => false
  end.

Definition is_sleep (e : GeminiApi.effect) : bool :=
  match e with
  | GeminiApi.SleepBackoff _ | GeminiApi.SleepFixed => true
  | _ => false
  end.

(** Number of waits in a log. *)
Definition sleeps (log : list GeminiApi.effect) : nat :=
  length (List.filter is_sleep log).

(** What [generateContent] returns when the key is present, read off the
    answers of the network. *)
Definition expected_reply (network : nat -> GeminiApi.fetch_result) (maxRetries : nat)
    : string :=
  match first_usable network 0 maxRetries with
  | Some (_, t) => t
  | None =>
      if Nat.eqb maxRetries 0 || rate_limited network (maxRetries - 1)
      then GeminiApi.FAILED
      else GeminiApi.FAILED_AFTER_RETRIES
  end.

(** The keyword tests of the translator. *)
Definition asks_proxy (q : string) : bool :=
  RagAnalyzer.mentions q "proxy" || RagAnalyzer.mentions q "proxies".

Definition asks_intruder (q : string) : bool :=
  RagAnalyzer.mentions q "intruder" || RagAnalyzer.mentions q "intruders".

Definition asks_alias (q : string) : bool :=
  RagAnalyzer.mentions q "ashraf" || RagAnalyzer.mentions q "mahaboob".

(** The students the directory lookup of rule 3 returns for [q]. *)
Definition alias_matches (c : RagAnalyzer.client) (q : string) : list RagAnalyzer.student :=
  default []
    (RagAnalyzer.students_ilike c
       ("%" +:+ (if RagAnalyzer.mentions q "ashraf" then "ashraf" else "mahaboob") +:+ "%")).

Definition is_call (a : RagAnalyzer.action) : bool :=
  match a with RagAnalyzer.CallGenerateContent _ _ => true | _ => false end.

Definition is_select_logs (a : RagAnalyzer.action) : bool :=
  match a with RagAnalyzer.SelectLogs _ => true | _ => false end.

(** The imported [generateContent] as [runRAGAnalysis] calls it: two
    arguments, so three attempts at most. *)
Definition wired_generateContent
    (network : nat -> GeminiApi.fetch_result) (API_KEY : string)
    (systemInstruction userQuery : string) : GeminiApi.completion string :=
  fst (GeminiApi.generateContent network API_KEY systemInstruction userQuery 3 []).

(* ===================================================================== *)
(** ** Sample data used by the examples *)
(* ===================================================================== *)

(** An identified row. *)
Definition row (roll ty ts : string) : App.log :=
  {| App.roll_no := Some roll; App.event_type := ty; App.timestamp := Some ts;
     App.is_spoof := false; App.evidence_url := None |}.

(** An unidentified row without evidence. *)
Definition anonymous (ty : string) (ts : option string) : App.log :=
  {| App.roll_no := None; App.event_type := ty; App.timestamp := ts;
     App.is_spoof := false; App.evidence_url := None |}.

(** A clock for the examples: [Date.getTime] on the ISO timestamps of
    1 March 2025 (UTC) that the examples use, [NaN] elsewhere. *)
Definition sample_getTime (v : option string) : option Z :=
  match v with
  | Some "2025-03-01T09:00:00Z" => Some 1740819600000
  | Some "2025-03-01T09:05:00Z" => Some 1740819900000
  | Some "2025-03-01T09:30:00Z" => Some 1740821400000
  | Some "2025-03-01T10:59:30Z" => Some 1740826770000
  | Some "2025-03-01T17:00:00Z" => Some 1740848400000
  | _ => None
  end.

(** A store that answers the attendance query with the given rows. *)
Definition store_with (logs : list App.log) : option (string -> App.query_result) :=
  Some (fun _ => App.QueryAnswer (Some logs) None).

(** A network that answers every request with 429. *)
Definition always_rate_limited (attempt : nat) : GeminiApi.fetch_result :=
  GeminiApi.FetchResolves {| GeminiApi.status := 429; GeminiApi.body := GeminiApi.JsonRejects |}.

(** A network that answers 429, then 500, then a text. *)
Definition recovering (attempt : nat) : GeminiApi.fetch_result :=
  match attempt with
  | O => GeminiApi.FetchResolves
           {| GeminiApi.status := 429; GeminiApi.body := GeminiApi.JsonRejects |}
  | S O => GeminiApi.FetchResolves
             {| GeminiApi.status := 500; GeminiApi.body := GeminiApi.JsonText None |}
  | _ => GeminiApi.FetchResolves
           {| GeminiApi.status := 200;
              GeminiApi.body := GeminiApi.JsonText (Some "Two proxy attempts were logged.") |}
  end.

(** Stand-ins for [JSON.stringify] and for the generative client in the
    examples. *)
Definition sample_stringify (rows : list App.log) : string := "[]".

Definition sample_generate (systemInstruction userQuery : string)
    : GeminiApi.completion string :=
  GeminiApi.Normal "No threats were found.".

(** A store for the examples: two students (the second row corrects the
    name of the first), one proxy row for the assistant. *)
Definition sample_store : AppComponent.store :=
  {| AppComponent.select_students :=
       AppComponent.StudentsAnswer
         (Some [ {| AppComponent.s_roll_no := "21"; AppComponent.s_full_name := Some "A. Khan" |};
                 {| AppComponent.s_roll_no := "22"; AppComponent.s_full_name := Some "" |};
                 {| AppComponent.s_roll_no := "21"; AppComponent.s_full_name := Some "Ashraf Khan" |} ])
         None;
     AppComponent.select_last_logs := fun _ => AppComponent.RowsAnswer (Some []) None;
     AppComponent.select_attendance :=
       fun _ => App.QueryAnswer
                  (Some [row "21" "ENTRY" "2025-03-01T09:00:00Z";
                         row "21" "EXIT" "2025-03-01T17:00:00Z"]) None;
     AppComponent.rag_client :=
       {| RagAnalyzer.students_ilike := fun _ => Some [];
          RagAnalyzer.logs_select :=
            fun _ => (Some [row "21" "ENTRY" "2025-03-01T09:00:00Z"], None) |} |}.

(** A load that delivers one unspoofed row with evidence and the number 0
    as roll number. *)
Definition zero_roll_row : AppComponent.log_row :=
  {| AppComponent.row_roll_no := AppComponent.roll_of_number 0;
     AppComponent.row_event_type := "ENTRY";
     AppComponent.row_timestamp := Some "2025-03-01T09:00:00Z";
     AppComponent.row_is_spoof := false;
     AppComponent.row_evidence_url := Some "https://evidence/0.jpg" |}.

Definition zero_roll_store : AppComponent.store :=
  {| AppComponent.select_students := AppComponent.StudentsAnswer (Some []) None;
     AppComponent.select_last_logs :=
       fun _ => AppComponent.RowsAnswer (Some [zero_roll_row]) None;
     AppComponent.select_attendance := fun _ => App.QueryAnswer (Some []) None;
     AppComponent.rag_client :=
       {| RagAnalyzer.students_ilike := fun _ => Some [];
          RagAnalyzer.logs_select := fun _ => (Some [], None) |} |}.

(** Notified rows for the examples: row [k] carries the evidence URL
    [k]; every third row is an identified student (which the vault does
    not admit), the others are unidentified. *)
Definition notified_row (k : nat) : AppComponent.log_row :=
  {| AppComponent.row_roll_no :=
       if (k mod 3 =? 0)%nat then AppComponent.RollString "21"
       else AppComponent.RollNull;
     AppComponent.row_event_type := "ENTRY";
     AppComponent.row_timestamp := Some (JsString.of_Z (Z.of_nat k));
     AppComponent.row_is_spoof := false;
     AppComponent.row_evidence_url :=
       Some ("https://evidence/" +:+ JsString.of_Z (Z.of_nat k)) |}.

Definition notified : list AppComponent.log_row := List.map notified_row (seq 0 101).

(** A store with an empty student directory and no log rows. *)
Definition empty_store : RagAnalyzer.client :=
  {| RagAnalyzer.students_ilike := fun _ => Some [];
     RagAnalyzer.logs_select := fun _ => (Some [], None) |}.

(* ===================================================================== *)
(** ** Occupancy: batch scan and incremental update *)
(* ===================================================================== *)

Section Occupancy.
Import App.

Lemma count_type_cons ty r logs :
  count_type ty (r :: logs) =
  (if String.eqb (event_type r) ty then 1 else 0) + count_type ty logs.
Proof.
  unfold count_type. rewrite filter_cons.
  destruct (String.eqb_spec (event_type r) ty) as [E|E].
  - rewrite decide_True by exact E. cbn [length]. lia.
  - rewrite decide_False by exact E. lia.
Qed.

Lemma signed_sum_nil : signed_sum [] = 0.
Proof. reflexivity. Qed.

Lemma signed_sum_cons r logs :
  signed_sum (r :: logs) = occupancy_step 0 r + signed_sum logs.
Proof.
  unfold signed_sum, occupancy_step. rewrite !count_type_cons.
  destruct (String.eqb_spec (event_type r) "ENTRY") as [E|E].
  - rewrite E. cbn. lia.
  - destruct (String.eqb (event_type r) "EXIT"); lia.
Qed.

Lemma occupancy_step_shift e r : occupancy_step e r = e + occupancy_step 0 r.
Proof.
  unfold occupancy_step.
  destruct (String.eqb (event_type r) "ENTRY"), (String.eqb (event_type r) "EXIT"); lia.
Qed.

Lemma fold_occupancy_step logs : forall e,
  fold_left occupancy_step logs e = e + signed_sum logs.
Proof.
  induction logs as [|r logs IH]; intros e; cbn [fold_left].
  - rewrite signed_sum_nil. lia.
  - rewrite IH, signed_sum_cons, (occupancy_step_shift e r). lia.
Qed.

(** The accumulator of the scan is the ENTRY count minus the EXIT count. *)
Lemma occupancy_scan_signed logs : occupancy_scan logs = signed_sum logs.
Proof. unfold occupancy_scan. rewrite fold_occupancy_step. lia. Qed.

Lemma signed_sum_app logs more :
  signed_sum (logs ++ more)%list = signed_sum logs + signed_sum more.
Proof.
  rewrite <- !occupancy_scan_signed. unfold occupancy_scan.
  rewrite fold_left_app, !fold_occupancy_step. lia.
Qed.

Lemma signed_sum_single ev : signed_sum [ev] = occupancy_step 0 ev.
Proof. rewrite signed_sum_cons, signed_sum_nil. lia. Qed.

(** C5. For every event sequence the batch occupancy is the signed
    count (+1 per ENTRY, -1 per EXIT) over the whole sequence, clamped
    once at the end, hence never negative, whatever the running sum
    did mid-scan. *)
Theorem C5_batch_occupancy_clamped_once (logs : list log) :
  computeOccupancyFromLogs logs = spec_batch_occupancy logs
  /\ 0 <= computeOccupancyFromLogs logs.
Proof.
  unfold computeOccupancyFromLogs, spec_batch_occupancy.
  rewrite occupancy_scan_signed. split; lia.
Qed.

(** The running sum does go negative mid-scan, and the clamp is not
    applied there: after [EXIT; ENTRY] the batch value is 0, whereas
    clamping at every row would give 1. *)
Lemma batch_clamp_is_final_only :
  let logs := [row "7" "EXIT" "t1"; row "7" "ENTRY" "t2"] in
  occupancy_scan (take 1 logs) = -1
  /\ computeOccupancyFromLogs logs = 0
  /\ running_clamped logs = 1.
Proof. repeat split. Qed.

(** C1, as stated, fails: with a prior buffer holding one EXIT, the
    incremental update on an ENTRY gives 1 and the batch recompute 0. *)
Lemma C1_counterexample :
  computeDelta (computeOccupancyFromLogs [row "7" "EXIT" "t1"])
               (Some (row "7" "ENTRY" "t2"))
  <> computeOccupancyFromLogs ([row "7" "EXIT" "t1"] ++ [row "7" "ENTRY" "t2"])%list.
Proof. vm_compute. discriminate. Qed.

(** One incremental update from the batch value, under the side
    condition that makes the two clamps agree. *)
Lemma computeDelta_after_batch (logs : list log) (ev : log) :
  0 <= signed_sum logs \/ event_type ev <> "ENTRY" ->
  computeDelta (computeOccupancyFromLogs logs) (Some ev)
  = Z.max 0 (signed_sum logs + occupancy_step 0 ev).
Proof.
  intros H. unfold computeOccupancyFromLogs. rewrite occupancy_scan_signed.
  unfold computeDelta, occupancy_step.
  destruct (String.eqb_spec (event_type ev) "ENTRY") as [E|E].
  - destruct H as [H|H]; [|contradiction].
    rewrite E. cbn. lia.
  - destruct (String.eqb (event_type ev) "EXIT"); lia.
Qed.

(** C1, amended. When the signed sum of the prior buffer is not
    negative, or the new event is not an ENTRY, the incremental update
    of the batch occupancy equals the batch occupancy of the buffer with
    the event appended (and of the buffer with the event prepended, as
    the live path stores it). *)
Theorem C1_incremental_matches_batch (logs : list log) (ev : log) :
  0 <= signed_sum logs \/ event_type ev <> "ENTRY" ->
  computeDelta (computeOccupancyFromLogs logs) (Some ev)
    = computeOccupancyFromLogs (logs ++ [ev])%list
  /\ computeDelta (computeOccupancyFromLogs logs) (Some ev)
    = computeOccupancyFromLogs (ev :: logs).
Proof.
  intros H. rewrite (computeDelta_after_batch logs ev H).
  unfold computeOccupancyFromLogs.
  rewrite !occupancy_scan_signed, signed_sum_app, signed_sum_single, signed_sum_cons.
  split; f_equal; lia.
Qed.

Lemma C1_incremental_matches_batch_witness :
  computeDelta (computeOccupancyFromLogs [row "7" "ENTRY" "t1"])
               (Some (row "7" "EXIT" "t2"))
    = computeOccupancyFromLogs ([row "7" "ENTRY" "t1"] ++ [row "7" "EXIT" "t2"])%list
  /\ computeDelta (computeOccupancyFromLogs [row "7" "ENTRY" "t1"])
               (Some (row "7" "EXIT" "t2"))
    = computeOccupancyFromLogs (row "7" "EXIT" "t2" :: [row "7" "ENTRY" "t1"]).
Proof.
  apply (C1_incremental_matches_batch [row "7" "ENTRY" "t1"] (row "7" "EXIT" "t2")).
  left. vm_compute. discriminate.
Defined.

(** The amendment is tight: on an ENTRY after a negative signed sum the
    two always differ. *)
Lemma incremental_differs_when_negative (logs : list log) (ev : log) :
  signed_sum logs < 0 -> event_type ev = "ENTRY" ->
  computeDelta (computeOccupancyFromLogs logs) (Some ev) = 1
  /\ computeOccupancyFromLogs (logs ++ [ev])%list = 0.
Proof.
  intros Hneg E. unfold computeOccupancyFromLogs.
  rewrite !occupancy_scan_signed, signed_sum_app, signed_sum_single.
  unfold computeDelta, occupancy_step. rewrite E. cbn. lia.
Qed.

(** X2. The live path: as long as the signed sum stays non-negative while
    the notifications arrive, the occupancy kept by [on_insert] is the
    batch occupancy of everything seen (the stored buffer itself is cut
    to 100 rows). *)
Lemma live_occupancy_matches_batch (evs : list log) : forall logs buffer,
  (forall n, 0 <= signed_sum (logs ++ take n evs)%list) ->
  snd (fold_left on_insert evs (buffer, computeOccupancyFromLogs logs))
  = computeOccupancyFromLogs (logs ++ evs)%list.
Proof.
  induction evs as [|ev evs IH]; intros logs buffer H; cbn [fold_left].
  - rewrite app_nil_r. reflexivity.
  - unfold on_insert at 2. cbn [fst snd].
    assert (H0 : 0 <= signed_sum logs).
    { specialize (H 0%nat). cbn [take] in H. rewrite app_nil_r in H. exact H. }
    rewrite (computeDelta_after_batch logs ev (or_introl H0)).
    replace (Z.max 0 (signed_sum logs + occupancy_step 0 ev))
      with (computeOccupancyFromLogs (logs ++ [ev])%list).
    + rewrite IH.
      * rewrite <- app_assoc. reflexivity.
      * intros n. specialize (H (S n)). cbn [take] in H.
        rewrite <- app_assoc. exact H.
    + unfold computeOccupancyFromLogs.
      rewrite occupancy_scan_signed, signed_sum_app, signed_sum_single. reflexivity.
Qed.

End Occupancy.

(* ===================================================================== *)
(** ** Unique-in and intruder counts *)
(* ===================================================================== *)

Section Intruders.
Import App.
Variable random : nat -> draw.

Lemma scan_step_identified st ev :
  hasRoll ev = true -> anon_part (scan_step random st ev) = anon_part st.
Proof.
  intros H. unfold scan_step. rewrite H.
  destruct (decide _); reflexivity.
Qed.

Lemma scan_step_anon_congr st1 st2 ev :
  hasRoll ev = false -> anon_part st1 = anon_part st2 ->
  anon_part (scan_step random st1 ev) = anon_part (scan_step random st2 ev).
Proof.
  intros H E. unfold anon_part in E. injection E as E1 E2.
  unfold scan_step. rewrite H, E1, E2.
  destruct (intruder_key random ev (draws st2)) as [k n].
  destruct (negb _ && _); reflexivity.
Qed.

(** A step changes the intruder set only on an ENTRY row without roll
    number, and then by exactly one new key. *)
Lemma scan_step_seen st ev :
  intruderSeen (scan_step random st ev) = intruderSeen st
  \/ (hasRoll ev = false /\ event_type ev = "ENTRY" /\
      exists k, (k ∉ intruderSeen st) /\
                intruderSeen (scan_step random st ev) = {[ k ]} ∪ intruderSeen st).
Proof.
  unfold scan_step. destruct (hasRoll ev) eqn:H.
  - left. destruct (decide _); reflexivity.
  - destruct (intruder_key random ev (draws st)) as [k n].
    destruct (bool_decide (k ∈ intruderSeen st)) eqn:Hk; cbn [negb andb].
    + left. reflexivity.
    + destruct (String.eqb_spec (event_type ev) "ENTRY") as [E|E].
      * right. repeat split; try assumption.
        exists k. split; [|reflexivity].
        apply bool_decide_eq_false in Hk. exact Hk.
      * left. reflexivity.
Qed.

Lemma scan_step_seen_mono st ev :
  intruderSeen st ⊆ intruderSeen (scan_step random st ev).
Proof.
  destruct (scan_step_seen st ev) as [->|(_ & _ & k & _ & ->)].
  - reflexivity.
  - apply union_subseteq_r.
Qed.

Lemma fold_scan_seen_mono logs : forall st,
  intruderSeen st ⊆ intruderSeen (fold_left (scan_step random) logs st).
Proof.
  induction logs as [|ev logs IH]; intros st; cbn [fold_left]; [set_solver|].
  etransitivity; [apply (scan_step_seen_mono st ev)|apply IH].
Qed.

(** Rows with a roll number can be dropped without changing what the
    loop does to the intruder set. *)
Lemma fold_scan_drop_identified logs : forall st1 st2,
  anon_part st1 = anon_part st2 ->
  anon_part (fold_left (scan_step random) logs st1)
  = anon_part (fold_left (scan_step random)
                 (filter (fun ev => hasRoll ev = false) logs) st2).
Proof.
  induction logs as [|ev logs IH]; intros st1 st2 E; [exact E|].
  cbn [fold_left]. rewrite filter_cons.
  destruct (hasRoll ev) eqn:H.
  - rewrite decide_False by discriminate.
    apply IH. rewrite scan_step_identified by exact H. exact E.
  - rewrite decide_True by reflexivity. cbn [fold_left].
    apply IH. apply scan_step_anon_congr; assumption.
Qed.

(** The set grows by at most one key per ENTRY row without roll number. *)
Lemma fold_scan_seen_bound logs : forall st,
  (size (intruderSeen (fold_left (scan_step random) logs st))
   <= size (intruderSeen st)
      + length (filter (fun ev => hasRoll ev = false /\ event_type ev = "ENTRY") logs))%nat.
Proof.
  induction logs as [|ev logs IH]; intros st; cbn [fold_left].
  - cbn. lia.
  - specialize (IH (scan_step random st ev)). rewrite filter_cons.
    destruct (scan_step_seen st ev) as [E|(H1 & H2 & k & Hk & E)].
    + rewrite E in IH. destruct (decide _); cbn [length]; lia.
    + assert (D : {[ k ]} ## intruderSeen st) by (apply disjoint_singleton_l; exact Hk).
      rewrite E, (size_union _ _ D), size_singleton in IH.
      rewrite decide_True by (split; assumption). cbn [length]. lia.
Qed.

(** What "present" means for a roll number: a string that is not blank
    once trimmed. *)
Lemma hasRoll_present ev :
  hasRoll ev = true <-> exists r, roll_no ev = Some r /\ JsString.trim r <> "".
Proof.
  unfold hasRoll. destruct (roll_no ev) as [r|].
  - destruct (String.eqb_spec (JsString.trim r) "") as [E|E]; cbn [negb]; split.
    + discriminate.
    + intros (r' & [= <-] & N). contradiction.
    + intros _. exists r. split; [reflexivity|exact E].
    + reflexivity.
  - split; [discriminate|]. intros (r & Hr & _). discriminate.
Qed.

(** A roll number made of white space only is treated as absent. *)
Lemma blank_roll_is_absent :
  hasRoll {| roll_no := Some "  "; event_type := "ENTRY"; timestamp := Some "t";
             is_spoof := false; evidence_url := None |} = false.
Proof. reflexivity. Qed.

Lemma intruderCount_size logs :
  intruderCount (computeUniqueInAndIntruders random logs)
  = size (intruderSeen (scan_logs random logs)).
Proof. destruct logs; reflexivity. Qed.

(** C8. Over any window: the threat count is the size of the intruder
    set; rows with a present roll number contribute nothing (dropping
    them leaves the count unchanged); and the count is bounded by the
    number of ENTRY rows lacking a roll number, the only rows that add
    a key. *)
Theorem C8_threats_only_from_anonymous_entries (logs : list log) :
  intruderCount (computeUniqueInAndIntruders random logs)
    = size (intruderSeen (scan_logs random logs))
  /\ intruderCount (computeUniqueInAndIntruders random logs)
    = intruderCount (computeUniqueInAndIntruders random
                       (filter (fun ev => hasRoll ev = false) logs))
  /\ (intruderCount (computeUniqueInAndIntruders random logs)
      <= length (filter (fun ev => hasRoll ev = false /\ event_type ev = "ENTRY") logs))%nat.
Proof.
  rewrite !intruderCount_size. split; [reflexivity|split].
  - unfold scan_logs.
    pose proof (fold_scan_drop_identified logs scan0 scan0 eq_refl) as E.
    unfold anon_part in E. injection E as E _. rewrite E. reflexivity.
  - unfold scan_logs.
    pose proof (fold_scan_seen_bound logs scan0) as B.
    cbn [scan0 intruderSeen] in B. rewrite size_empty in B. lia.
Qed.

(** Step form of C8: a row with a present roll number leaves the
    intruder set and the draw counter alone. *)
Lemma identified_row_never_a_threat st ev :
  hasRoll ev = true ->
  intruderSeen (scan_step random st ev) = intruderSeen st
  /\ draws (scan_step random st ev) = draws st.
Proof.
  intros H. pose proof (scan_step_identified st ev H) as E.
  unfold anon_part in E. injection E as E1 E2. split; assumption.
Qed.

(** Step form of C8: whenever a step changes the intruder set, the row
    is an ENTRY without roll number. *)
Lemma only_anonymous_entry_adds_key st ev :
  intruderSeen (scan_step random st ev) <> intruderSeen st ->
  hasRoll ev = false /\ event_type ev = "ENTRY".
Proof.
  intros N. destruct (scan_step_seen st ev) as [E|(H1 & H2 & _)]; [contradiction|].
  split; assumption.
Qed.

Lemma intruder_key_random ev n :
  JsString.truthy (evidence_url ev) = false ->
  JsString.truthy (timestamp ev) = false ->
  intruder_key random ev n = (inr (random n), S n).
Proof. intros H1 H2. unfold intruder_key. rewrite H1, H2. reflexivity. Qed.

(** After the step of a row whose key is a random draw, that draw is in
    the set when the row is an ENTRY. *)
Lemma scan_step_random_key st ev :
  hasRoll ev = false -> event_type ev = "ENTRY" ->
  JsString.truthy (evidence_url ev) = false ->
  JsString.truthy (timestamp ev) = false ->
  inr (random (draws st)) ∈ intruderSeen (scan_step random st ev).
Proof.
  intros H E H1 H2. unfold scan_step.
  rewrite H, (intruder_key_random ev _ H1 H2), E, String.eqb_refl, andb_true_r.
  case_bool_decide as B; cbn [negb intruderSeen].
  - exact B.
  - apply elem_of_union_l, elem_of_singleton. reflexivity.
Qed.

(** The key of the row at position [i] stays in the final set. *)
Lemma random_key_in_final_set logs i ev :
  logs !! i = Some ev ->
  hasRoll ev = false -> event_type ev = "ENTRY" ->
  JsString.truthy (evidence_url ev) = false ->
  JsString.truthy (timestamp ev) = false ->
  inr (random (draws (scan_logs random (take i logs))))
    ∈ intruderSeen (scan_logs random logs).
Proof.
  intros L H E H1 H2.
  rewrite <- (take_drop_middle logs i ev L) at 2.
  unfold scan_logs. rewrite fold_left_app. cbn [fold_left].
  apply fold_scan_seen_mono.
  apply scan_step_random_key; assumption.
Qed.

(** C2, as stated, fails for equal timestamps: two ENTRY rows without
    roll number and evidence that carry the same timestamp share one
    key, and the threat count is 1, not 2. *)
Lemma C2_counterexample :
  let e1 := anonymous "ENTRY" (Some "2025-03-01T09:00:00Z") in
  let e2 := anonymous "ENTRY" (Some "2025-03-01T09:00:00Z") in
  hasRoll e1 = false /\ hasRoll e2 = false
  /\ event_type e1 = "ENTRY" /\ event_type e2 = "ENTRY"
  /\ evidence_url e1 = None /\ evidence_url e2 = None
  /\ timestamp e1 = timestamp e2
  /\ intruderCount (computeUniqueInAndIntruders (fun n => N.of_nat n) [e1; e2]) = 1%nat
  /\ intruderCount (computeUniqueInAndIntruders (fun n => N.of_nat n) [e1; e2]) <> 2%nat.
Proof. vm_compute. repeat split; discriminate. Qed.

Lemma intruder_key_timestamp ev n ts :
  JsString.truthy (evidence_url ev) = false ->
  timestamp ev = Some ts -> ts <> "" ->
  intruder_key random ev n = (inl ts, n).
Proof.
  intros H1 H2 N. unfold intruder_key. rewrite H1, H2. cbn.
  destruct (String.eqb_spec ts ""); [contradiction|reflexivity].
Qed.

(** The step of an ENTRY row keyed by its timestamp. *)
Lemma scan_step_timestamp_key st ev ts :
  hasRoll ev = false -> event_type ev = "ENTRY" ->
  JsString.truthy (evidence_url ev) = false ->
  timestamp ev = Some ts -> ts <> "" ->
  intruderSeen (scan_step random st ev) = {[ inl ts ]} ∪ intruderSeen st.
Proof.
  intros H E H1 H2 N. unfold scan_step.
  rewrite H, (intruder_key_timestamp ev _ ts H1 H2 N), E, String.eqb_refl, andb_true_r.
  case_bool_decide as B; cbn [negb intruderSeen].
  - symmetry. apply subseteq_union_1_L, singleton_subseteq_l. exact B.
  - reflexivity.
Qed.

(** The timestamp key of the row at position [i] is in the set after
    the scan. *)
Lemma timestamp_key_in_final_set logs i ev ts :
  logs !! i = Some ev ->
  hasRoll ev = false -> event_type ev = "ENTRY" ->
  JsString.truthy (evidence_url ev) = false ->
  timestamp ev = Some ts -> ts <> "" ->
  inl ts ∈ intruderSeen (scan_logs random logs).
Proof.
  intros L H E H1 H2 N.
  rewrite <- (take_drop_middle logs i ev L).
  unfold scan_logs. rewrite fold_left_app. cbn [fold_left].
  apply fold_scan_seen_mono.
  rewrite (scan_step_timestamp_key _ ev ts H E H1 H2 N).
  apply elem_of_union_l, elem_of_singleton. reflexivity.
Qed.

(** A row keyed by a timestamp that is already in the set leaves the
    whole loop state as it was: nothing is added and nothing is drawn. *)
Lemma scan_step_known_timestamp st ev ts :
  hasRoll ev = false ->
  JsString.truthy (evidence_url ev) = false ->
  timestamp ev = Some ts -> ts <> "" ->
  inl ts ∈ intruderSeen st ->
  scan_step random st ev = st.
Proof.
  intros H H1 H2 N K. unfold scan_step.
  rewrite H, (intruder_key_timestamp ev _ ts H1 H2 N).
  rewrite bool_decide_eq_true_2 by exact K. cbn [negb andb].
  destruct st; reflexivity.
Qed.

(** C2, amended. In any window, take two ENTRY rows without roll number and
    without evidence URL. If both have no timestamp, each puts its own
    random key in the intruder set and the threat count is at least 2,
    provided the two results of [Math.random()] differ. If both carry
    the same present timestamp, they share that timestamp as their key
    and are counted once: when the later row is scanned the key is
    already in the set, the row adds nothing to it, removing the row
    from the window changes neither counter, and a window made of the
    two rows alone has threat count 1. *)
Theorem C2_keyless_rows_counted_by_key
    (logs : list log) (i j : nat) (ei ej : log) :
  logs !! i = Some ei -> logs !! j = Some ej ->
  hasRoll ei = false -> hasRoll ej = false ->
  event_type ei = "ENTRY" -> event_type ej = "ENTRY" ->
  JsString.truthy (evidence_url ei) = false ->
  JsString.truthy (evidence_url ej) = false ->
  (JsString.truthy (timestamp ei) = false ->
   JsString.truthy (timestamp ej) = false ->
   random (draws (scan_logs random (take i logs)))
     <> random (draws (scan_logs random (take j logs))) ->
   inr (random (draws (scan_logs random (take i logs))))
     ∈ intruderSeen (scan_logs random logs)
   /\ inr (random (draws (scan_logs random (take j logs))))
     ∈ intruderSeen (scan_logs random logs)
   /\ (2 <= intruderCount (computeUniqueInAndIntruders random logs))%nat)
  /\ (forall ts : string,
      timestamp ei = Some ts -> timestamp ej = Some ts -> ts <> "" -> (i < j)%nat ->
      inl ts ∈ intruderSeen (scan_logs random (take j logs))
      /\ intruderSeen (scan_logs random (take (S j) logs))
         = intruderSeen (scan_logs random (take j logs))
      /\ inl ts ∈ intruderSeen (scan_logs random logs)
      /\ computeUniqueInAndIntruders random (delete j logs)
         = computeUniqueInAndIntruders random logs
      /\ intruderCount (computeUniqueInAndIntruders random [ei; ej]) = 1%nat).
Proof.
  intros Li Lj Hi Hj Ei Ej Ui Uj. split.
  - intros Ti Tj D.
    pose proof (random_key_in_final_set logs i ei Li Hi Ei Ui Ti) as Ki.
    pose proof (random_key_in_final_set logs j ej Lj Hj Ej Uj Tj) as Kj.
    split; [exact Ki|split; [exact Kj|]].
    rewrite intruderCount_size.
    set (ki := random (draws (scan_logs random (take i logs)))) in *.
    set (kj := random (draws (scan_logs random (take j logs)))) in *.
    assert (S2 : size ({[ inr ki ]} ∪ {[ inr kj ]} : gset key) = 2%nat).
    { rewrite size_union, !size_singleton; [reflexivity|].
      apply disjoint_singleton_l. rewrite elem_of_singleton. congruence. }
    rewrite <- S2. apply subseteq_size.
    apply union_subseteq. split; apply singleton_subseteq_l; assumption.
  - intros ts Ti Tj N Lt.
    assert (K : inl ts ∈ intruderSeen (scan_logs random (take j logs))).
    { apply (timestamp_key_in_final_set (take j logs) i ei ts); try assumption.
      rewrite lookup_take. destruct (decide (i < j)%nat); [exact Li|contradiction]. }
    assert (St : scan_step random (scan_logs random (take j logs)) ej
                 = scan_logs random (take j logs)).
    { apply (scan_step_known_timestamp _ ej ts); assumption. }
    assert (Sc : scan_logs random (delete j logs) = scan_logs random logs).
    { rewrite delete_take_drop. rewrite <- (take_drop_middle logs j ej Lj) at 3.
      unfold scan_logs in *. rewrite !fold_left_app. cbn [fold_left].
      rewrite St. reflexivity. }
    split; [exact K|split; [|split; [|split]]].
    + rewrite (take_S_r logs j ej Lj). unfold scan_logs in *.
      rewrite fold_left_app. cbn [fold_left]. rewrite St. reflexivity.
    + apply (timestamp_key_in_final_set logs i ei ts); assumption.
    + unfold computeUniqueInAndIntruders. rewrite Sc.
      pose proof (lookup_lt_Some _ _ _ Lj) as Len.
      destruct logs as [|l0 [|l1 logs]]; cbn [length] in Len; [lia|lia|].
      destruct j as [|j]; [lia|]. reflexivity.
    + rewrite intruderCount_size. unfold scan_logs. cbn [fold_left].
      rewrite (scan_step_timestamp_key _ ej ts Hj Ej Uj Tj N),
              (scan_step_timestamp_key _ ei ts Hi Ei Ui Ti N).
      cbn [scan0 intruderSeen].
      rewrite union_empty_r_L, union_idemp_L.
      apply size_singleton.
Qed.

End Intruders.

(** A window of two rows without roll number, evidence and timestamp,
    with [Math.random] returning 0, 1, 2, ...: both are counted. A
    window where two rows carry the same timestamp, with an identified
    row and another sighting around them: the later of the two adds
    nothing, and the count is that of the window without it. *)
Lemma C2_keyless_rows_counted_by_key_witness :
  let random := fun n => N.of_nat n in
  let blank := [anonymous "ENTRY" None; anonymous "ENTRY" (Some "")] in
  let t9 := anonymous "ENTRY" (Some "2025-03-01T09:00:00Z") in
  let shared := [anonymous "ENTRY" (Some "2025-03-01T08:00:00Z"); t9;
                 row "21" "ENTRY" "2025-03-01T09:00:00Z"; t9] in
  ((inr 0%N : App.key) ∈ App.intruderSeen (App.scan_logs random blank)
   /\ (inr 1%N : App.key) ∈ App.intruderSeen (App.scan_logs random blank)
   /\ (2 <= App.intruderCount (App.computeUniqueInAndIntruders random blank))%nat)
  /\ ((inl "2025-03-01T09:00:00Z" : App.key)
        ∈ App.intruderSeen (App.scan_logs random (take 3 shared))
      /\ App.intruderSeen (App.scan_logs random (take 4 shared))
         = App.intruderSeen (App.scan_logs random (take 3 shared))
      /\ (inl "2025-03-01T09:00:00Z" : App.key)
           ∈ App.intruderSeen (App.scan_logs random shared)
      /\ App.computeUniqueInAndIntruders random (delete 3%nat shared)
         = App.computeUniqueInAndIntruders random shared
      /\ App.intruderCount (App.computeUniqueInAndIntruders random [t9; t9]) = 1%nat).
Proof.
  split.
  - apply (proj1 (C2_keyless_rows_counted_by_key (fun n => N.of_nat n)
             [anonymous "ENTRY" None; anonymous "ENTRY" (Some "")] 0 1
             (anonymous "ENTRY" None) (anonymous "ENTRY" (Some ""))
             eq_refl eq_refl eq_refl eq_refl eq_refl eq_refl eq_refl eq_refl));
      try reflexivity.
    vm_compute. discriminate.
  - apply (proj2 (C2_keyless_rows_counted_by_key (fun n => N.of_nat n)
             [anonymous "ENTRY" (Some "2025-03-01T08:00:00Z");
              anonymous "ENTRY" (Some "2025-03-01T09:00:00Z");
              row "21" "ENTRY" "2025-03-01T09:00:00Z";
              anonymous "ENTRY" (Some "2025-03-01T09:00:00Z")] 1 3
             (anonymous "ENTRY" (Some "2025-03-01T09:00:00Z"))
             (anonymous "ENTRY" (Some "2025-03-01T09:00:00Z"))
             eq_refl eq_refl eq_refl eq_refl eq_refl eq_refl eq_refl eq_refl)
           "2025-03-01T09:00:00Z"); try reflexivity.
    + discriminate.
    + lia.
Defined.

(* ===================================================================== *)
(** ** Attendance duration *)
(* ===================================================================== *)

Section Attendance.
Import App.
Variable Date_getTime : option string -> option Z.

Local Abbreviation step := (pairing_step Date_getTime).
Local Abbreviation total logs := (totalDurationMinutes (pair_logs Date_getTime logs)).

Lemma elapsed_nonneg (entry exit : Z) :
  entry < exit -> (0 <= inject_Z (exit - entry) / 60000)%Q.
Proof.
  intros H. unfold Qdiv. apply Qmult_le_0_compat.
  - unfold Qle. cbn. lia.
  - discriminate.
Qed.

Lemma pair_logs_snoc logs l :
  pair_logs Date_getTime (logs ++ [l])%list = step (pair_logs Date_getTime logs) l.
Proof. unfold pair_logs. rewrite fold_left_app. reflexivity. Qed.

(** ENTRY while an entry is open: ignored. *)
Lemma entry_while_open_ignored st l :
  event_type l = "ENTRY" -> is_Some (entryTime st) -> step st l = st.
Proof.
  intros E [t Ht]. unfold pairing_step. rewrite E, Ht. reflexivity.
Qed.

(** ENTRY while no entry is open: its time becomes the open entry. *)
Lemma entry_opens st l :
  event_type l = "ENTRY" -> entryTime st = None ->
  step st l = {| totalDurationMinutes := totalDurationMinutes st;
                 entryTime := Some (Date_getTime (timestamp l)) |}.
Proof. intros E H. unfold pairing_step. rewrite E, H. reflexivity. Qed.

(** EXIT while no entry is open: ignored. *)
Lemma exit_without_entry_ignored st l :
  event_type l = "EXIT" -> entryTime st = None -> step st l = st.
Proof. intros E H. unfold pairing_step. rewrite E, H. reflexivity. Qed.

(** EXIT not strictly after the open entry: ignored. *)
Lemma exit_not_after_entry_ignored st l entry exit :
  event_type l = "EXIT" -> entryTime st = Some (Some entry) ->
  Date_getTime (timestamp l) = Some exit -> exit <= entry -> step st l = st.
Proof.
  intros E H T Le. unfold pairing_step. rewrite E, H, T. cbn.
  destruct (Z.ltb_spec entry exit); [lia|reflexivity].
Qed.

(** EXIT strictly after the open entry: the elapsed minutes are added
    and the entry is closed. *)
Lemma exit_closes_pair st l entry exit :
  event_type l = "EXIT" -> entryTime st = Some (Some entry) ->
  Date_getTime (timestamp l) = Some exit -> entry < exit ->
  step st l = {| totalDurationMinutes :=
                   (totalDurationMinutes st + inject_Z (exit - entry) / 60000)%Q;
                 entryTime := None |}.
Proof.
  intros E H T Lt. unfold pairing_step. rewrite E, H, T. cbn.
  destruct (Z.ltb_spec entry exit); [reflexivity|lia].
Qed.

(** An ENTRY never changes the total. *)
Lemma entry_keeps_total st l :
  event_type l = "ENTRY" -> totalDurationMinutes (step st l) = totalDurationMinutes st.
Proof.
  intros E. unfold pairing_step. rewrite E. cbn.
  destruct (entryTime st); reflexivity.
Qed.

(** A step never lowers the total. *)
Lemma step_total_le st l :
  (totalDurationMinutes st <= totalDurationMinutes (step st l))%Q.
Proof.
  unfold pairing_step.
  destruct (String.eqb (event_type l) "ENTRY").
  { destruct (entryTime st); apply Qle_refl. }
  destruct (String.eqb (event_type l) "EXIT"); [|apply Qle_refl].
  destruct (entryTime st) as [[entry|]|]; try apply Qle_refl.
  destruct (Date_getTime (timestamp l)) as [exit|]; try apply Qle_refl.
  destruct (Z.ltb_spec entry exit) as [Lt|]; [|apply Qle_refl].
  cbn [totalDurationMinutes].
  rewrite <- (Qplus_0_r (totalDurationMinutes st)) at 1.
  apply Qplus_le_compat; [apply Qle_refl|apply elapsed_nonneg; exact Lt].
Qed.

Lemma fold_total_le more : forall st,
  (totalDurationMinutes st
   <= totalDurationMinutes (fold_left step more st))%Q.
Proof.
  induction more as [|l more IH]; intros st; cbn [fold_left]; [apply Qle_refl|].
  eapply Qle_trans; [apply step_total_le|apply IH].
Qed.

Lemma total_nonneg logs : (0 <= total logs)%Q.
Proof. apply (fold_total_le logs pairing0). Qed.

Lemma percentage_value_bounds (x : Q) :
  (0 <= x)%Q -> (0 <= percentage_value x)%Q /\ (percentage_value x <= 100)%Q.
Proof.
  intros H. unfold percentage_value. split.
  - apply Q.min_glb; [discriminate|].
    apply Qmult_le_0_compat; [|discriminate].
    unfold Qdiv. apply Qmult_le_0_compat; [exact H|discriminate].
  - apply Q.le_min_l.
Qed.

Lemma tenths_bounds (x : Q) :
  (0 <= x)%Q -> (x <= 100)%Q -> 0 <= tenths x <= 1000.
Proof.
  intros H0 H1. unfold tenths. split.
  - change 0 with (Qfloor (0 * 10 + (1 # 2))%Q). apply Qfloor_resp_le.
    apply Qplus_le_compat; [|apply Qle_refl].
    apply Qmult_le_compat_r; [exact H0|discriminate].
  - change 1000 with (Qfloor (100 * 10 + (1 # 2))%Q). apply Qfloor_resp_le.
    apply Qplus_le_compat; [|apply Qle_refl].
    apply Qmult_le_compat_r; [exact H1|discriminate].
Qed.

(** C4. The pairing follows the stated state machine: an ENTRY while
    an entry is open is ignored; an EXIT with no open entry, or not
    strictly after the open entry, is ignored; a valid pair adds its
    elapsed minutes and closes the entry; a trailing ENTRY adds
    nothing; and the history ENTRY 09:00, ENTRY 09:05, EXIT 09:30 gives
    the single session "0h 30m". *)
Theorem C4_pairing_state_machine :
  (forall st l, event_type l = "ENTRY" -> is_Some (entryTime st) -> step st l = st)
  /\ (forall st l, event_type l = "EXIT" -> entryTime st = None -> step st l = st)
  /\ (forall st l entry exit,
        event_type l = "EXIT" -> entryTime st = Some (Some entry) ->
        Date_getTime (timestamp l) = Some exit -> exit <= entry -> step st l = st)
  /\ (forall st l entry exit,
        event_type l = "EXIT" -> entryTime st = Some (Some entry) ->
        Date_getTime (timestamp l) = Some exit -> entry < exit ->
        step st l = {| totalDurationMinutes :=
                         (totalDurationMinutes st + inject_Z (exit - entry) / 60000)%Q;
                       entryTime := None |})
  /\ (forall logs l, event_type l = "ENTRY" -> total (logs ++ [l])%list = total logs)
  /\ (forall roll t0900 t0905 t0930 ms,
        roll <> "" ->
        Date_getTime (Some t0900) = Some ms ->
        Date_getTime (Some t0905) = Some (ms + 5 * 60000) ->
        Date_getTime (Some t0930) = Some (ms + 30 * 60000) ->
        let history := [row roll "ENTRY" t0900; row roll "ENTRY" t0905;
                        row roll "EXIT" t0930] in
        (total history == 30)%Q
        /\ duration (calculateStudentAttendance Date_getTime (store_with history) roll)
           = "0h 30m").
Proof.
  split; [exact entry_while_open_ignored|].
  split; [exact exit_without_entry_ignored|].
  split; [exact exit_not_after_entry_ignored|].
  split; [exact exit_closes_pair|].
  split.
  { intros logs l E. rewrite pair_logs_snoc. apply entry_keeps_total. exact E. }
  intros roll t0900 t0905 t0930 ms R T1 T2 T3 history.
  assert (P : pair_logs Date_getTime history
              = {| totalDurationMinutes := (0 + inject_Z (30 * 60000) / 60000)%Q;
                   entryTime := None |}).
  { unfold history, pair_logs. cbn [fold_left].
    rewrite (entry_opens pairing0) by reflexivity.
    rewrite (entry_while_open_ignored _ (row roll "ENTRY" t0905))
      by (try reflexivity; eexists; reflexivity).
    rewrite (exit_closes_pair _ _ ms (ms + 30 * 60000)); try reflexivity.
    - cbn [totalDurationMinutes pairing0].
      replace (ms + 30 * 60000 - ms) with (30 * 60000) by lia. reflexivity.
    - cbn [entryTime row timestamp]. rewrite T1. reflexivity.
    - exact T3.
    - lia. }
  split; [rewrite P; reflexivity|].
  unfold calculateStudentAttendance, store_with.
  destruct (String.eqb_spec roll "") as [|_]; [contradiction|].
  unfold history at 1. unfold summarize. fold history. rewrite P.
  vm_compute. reflexivity.
Qed.

(** C9. The total never decreases when the history is extended (by
    valid pairs or by any other rows), and the percentage value
    [min(100, total / 480 * 100)] lies in [0, 100], as does the number
    of tenths printed by [toFixed(1)]. *)
Theorem C9_total_monotone_percentage_bounded (logs more : list log) :
  (total logs <= total (logs ++ more)%list)%Q
  /\ (0 <= percentage_value (total logs))%Q
  /\ (percentage_value (total logs) <= 100)%Q
  /\ 0 <= tenths (percentage_value (total logs)) <= 1000.
Proof.
  split.
  { unfold pair_logs. rewrite fold_left_app. apply fold_total_le. }
  destruct (percentage_value_bounds (total logs) (total_nonneg logs)) as [L U].
  split; [exact L|split; [exact U|]].
  apply tenths_bounds; assumption.
Qed.

(** A valid pair appended to a history that has no open entry raises
    the total by exactly its elapsed minutes. *)
Lemma valid_pair_adds_elapsed logs a b entry exit :
  entryTime (pair_logs Date_getTime logs) = None ->
  event_type a = "ENTRY" -> event_type b = "EXIT" ->
  Date_getTime (timestamp a) = Some entry ->
  Date_getTime (timestamp b) = Some exit -> entry < exit ->
  total (logs ++ [a; b])%list = (total logs + inject_Z (exit - entry) / 60000)%Q.
Proof.
  intros H Ea Eb Ta Tb Lt.
  change [a; b] with ([a] ++ [b])%list.
  rewrite app_assoc, !pair_logs_snoc.
  rewrite (entry_opens _ a Ea H).
  rewrite (exit_closes_pair _ b entry exit Eb); try assumption.
  - reflexivity.
  - cbn [entryTime]. rewrite Ta. reflexivity.
Qed.

(** C10. A history of one valid pair lasting 119.5 minutes is printed
    as "1h 60m": the hours are floored and the remaining minutes are
    rounded separately, so the minutes component reaches 60. *)
Theorem C10_minutes_component_reaches_60 (roll tin tout : string) (ms : Z) :
  roll <> "" ->
  Date_getTime (Some tin) = Some ms ->
  Date_getTime (Some tout) = Some (ms + 7170000) ->
  let history := [row roll "ENTRY" tin; row roll "EXIT" tout] in
  (total history == 1195 # 10)%Q
  /\ Math_round (js_rem (total history) 60) = 60
  /\ duration (calculateStudentAttendance Date_getTime (store_with history) roll)
     = "1h 60m".
Proof.
  intros R T1 T2 history.
  assert (P : pair_logs Date_getTime history
              = {| totalDurationMinutes := (0 + inject_Z 7170000 / 60000)%Q;
                   entryTime := None |}).
  { unfold history, pair_logs. cbn [fold_left].
    rewrite (entry_opens pairing0) by reflexivity.
    rewrite (exit_closes_pair _ _ ms (ms + 7170000)); try reflexivity.
    - cbn [totalDurationMinutes pairing0].
      replace (ms + 7170000 - ms) with 7170000 by lia. reflexivity.
    - cbn [entryTime row timestamp]. rewrite T1. reflexivity.
    - exact T2.
    - lia. }
  split; [rewrite P; reflexivity|].
  split; [rewrite P; reflexivity|].
  unfold calculateStudentAttendance, store_with.
  destruct (String.eqb_spec roll "") as [|_]; [contradiction|].
  unfold history at 1. unfold summarize. fold history. rewrite P.
  vm_compute. reflexivity.
Qed.

End Attendance.

Lemma C4_pairing_state_machine_witness :
  let history := [row "21" "ENTRY" "2025-03-01T09:00:00Z";
                  row "21" "ENTRY" "2025-03-01T09:05:00Z";
                  row "21" "EXIT" "2025-03-01T09:30:00Z"] in
  (App.totalDurationMinutes (App.pair_logs sample_getTime history) == 30)%Q
  /\ App.duration (App.calculateStudentAttendance sample_getTime (store_with history) "21")
     = "0h 30m".
Proof.
  apply (proj2 (proj2 (proj2 (proj2 (proj2 (C4_pairing_state_machine sample_getTime)))))
           "21" "2025-03-01T09:00:00Z" "2025-03-01T09:05:00Z" "2025-03-01T09:30:00Z"
           1740819600000).
  - discriminate.
  - reflexivity.
  - reflexivity.
  - reflexivity.
Defined.

Lemma C10_minutes_component_reaches_60_witness :
  let history := [row "21" "ENTRY" "2025-03-01T09:00:00Z";
                  row "21" "EXIT" "2025-03-01T10:59:30Z"] in
  (App.totalDurationMinutes (App.pair_logs sample_getTime history) == 1195 # 10)%Q
  /\ App.Math_round (App.js_rem (App.totalDurationMinutes
                                   (App.pair_logs sample_getTime history)) 60) = 60
  /\ App.duration (App.calculateStudentAttendance sample_getTime (store_with history) "21")
     = "1h 60m".
Proof.
  apply (C10_minutes_component_reaches_60 sample_getTime
           "21" "2025-03-01T09:00:00Z" "2025-03-01T10:59:30Z" 1740819600000).
  - discriminate.
  - reflexivity.
  - reflexivity.
Defined.

(* ===================================================================== *)
(** ** The generative client *)
(* ===================================================================== *)

Section Gemini.
Import GeminiApi.
Variable network : nat -> fetch_result.
Variables systemInstruction userQuery : string.

Local Abbreviation turn_of maxRetries attempt :=
  (try_catch (try_block network attempt systemInstruction userQuery)
             (catch_block maxRetries attempt)).

Ltac run_turn :=
  unfold try_catch, try_block, catch_block, fetch, json, candidate_text;
  unfold bind, emit, ret, throw.

Lemma fetches_snoc log e :
  fetches (log ++ [e])%list = (fetches log + (if is_fetch e then 1 else 0))%nat.
Proof.
  unfold fetches. rewrite List.filter_app, length_app. cbn [List.filter].
  destruct (is_fetch e); reflexivity.
Qed.

(** A turn whose response carries a usable text returns it at once. *)
Lemma turn_usable maxRetries attempt t log :
  usable_text network attempt = Some t ->
  turn_of maxRetries attempt log
  = (Normal (Return t), (log ++ [Fetch attempt systemInstruction userQuery])%list).
Proof.
  unfold usable_text. run_turn.
  destruct (network attempt) as [|r]; [discriminate|].
  destruct (status r =? 429); [discriminate|].
  destruct (ok r); cbn [negb]; [|discriminate].
  destruct (body r) as [| |[t'|]]; try discriminate.
  cbn [JsString.truthy].
  destruct (String.eqb t' ""); [discriminate|].
  intros [= ->]. reflexivity.
Qed.

(** A turn answered 429 backs off and goes on to the next attempt,
    without passing through the [catch] block. *)
Lemma turn_rate_limited maxRetries attempt r log :
  network attempt = FetchResolves r -> status r = 429 ->
  turn_of maxRetries attempt log
  = (Normal NextAttempt,
     (log ++ [Fetch attempt systemInstruction userQuery] ++ [SleepBackoff attempt])%list).
Proof.
  intros N S429. run_turn. rewrite N, S429. cbn.
  rewrite <- app_assoc. reflexivity.
Qed.

(** What the [catch] block does after a throw at log [lg]. *)
Lemma catch_block_runs maxRetries attempt error lg :
  catch_block maxRetries attempt error lg
  = if Nat.eqb attempt (maxRetries - 1)
    then (Normal (Return FAILED_AFTER_RETRIES), (lg ++ [ConsoleError])%list)
    else (Normal NextAttempt, ((lg ++ [ConsoleError]) ++ [SleepFixed])%list).
Proof.
  unfold catch_block, bind, emit, ret.
  destruct (Nat.eqb attempt (maxRetries - 1)); reflexivity.
Qed.

(** A turn without usable text never throws: it goes on to the next
    attempt, or on the last attempt returns the after-retries sentinel
    from the [catch] block. It performs exactly one [fetch]. *)
Lemma turn_unusable maxRetries attempt log :
  usable_text network attempt = None ->
  exists log',
    fetches log' = S (fetches log)
    /\ (turn_of maxRetries attempt log = (Normal NextAttempt, log')
        \/ (attempt = (maxRetries - 1)%nat
            /\ turn_of maxRetries attempt log
               = (Normal (Return FAILED_AFTER_RETRIES), log'))).
Proof.
  assert (F1 : fetches (log ++ [Fetch attempt systemInstruction userQuery])%list
               = S (fetches log)).
  { rewrite fetches_snoc. cbn. lia. }
  assert (Caught : forall error,
    exists log',
      fetches log' = S (fetches log)
      /\ (catch_block maxRetries attempt error
            (log ++ [Fetch attempt systemInstruction userQuery])%list
          = (Normal NextAttempt, log')
          \/ (attempt = (maxRetries - 1)%nat
              /\ catch_block maxRetries attempt error
                   (log ++ [Fetch attempt systemInstruction userQuery])%list
                 = (Normal (Return FAILED_AFTER_RETRIES), log')))).
  { intros error. rewrite catch_block_runs.
    destruct (Nat.eqb_spec attempt (maxRetries - 1)) as [E|E].
    - eexists. split.
      2: { right. split; [exact E|reflexivity]. }
      rewrite !fetches_snoc. cbn [is_fetch]. lia.
    - eexists. split.
      2: { left. reflexivity. }
      rewrite !fetches_snoc. cbn [is_fetch]. lia. }
  unfold usable_text.
  unfold try_catch, try_block, fetch, json, candidate_text.
  unfold bind, emit, ret, throw.
  destruct (network attempt) as [|r]; [intros _; apply Caught|].
  destruct (Z.eqb_spec (status r) 429) as [S429|S429].
  { intros _. eexists. split.
    2: { left. reflexivity. }
    rewrite !fetches_snoc. cbn [is_fetch]. lia. }
  destruct (ok r); cbn [negb].
  - destruct (body r) as [| |[t'|]]; cbn [JsString.truthy];
      try (intros _; apply Caught).
    destruct (String.eqb t' ""); cbn [negb]; [intros _; apply Caught|discriminate].
  - intros _. destruct (body r); apply Caught.
Qed.

(** The loop never throws. *)
Lemma attempts_never_throw maxRetries remaining : forall attempt log,
  exists s log',
    attempts network maxRetries remaining attempt systemInstruction userQuery log
    = (Normal s, log').
Proof.
  induction remaining as [|k IH]; intros attempt log.
  - eexists _, _. reflexivity.
  - cbn [attempts]. unfold bind at 1.
    destruct (usable_text network attempt) as [t|] eqn:U.
    + rewrite (turn_usable maxRetries attempt t log U). eexists _, _. reflexivity.
    + destruct (turn_unusable maxRetries attempt log U) as (log' & _ & [E|[_ E]]);
        rewrite E.
      * apply IH.
      * eexists _, _. reflexivity.
Qed.

Local Abbreviation loop maxRetries remaining attempt :=
  (attempts network maxRetries remaining attempt systemInstruction userQuery).

(** When no remaining attempt has a usable text, the loop ends with one
    of the two failure sentinels. *)
Lemma attempts_exhausted maxRetries remaining : forall attempt log,
  (attempt + remaining = maxRetries)%nat ->
  (forall i, (attempt <= i < maxRetries)%nat -> usable_text network i = None) ->
  exists s log',
    loop maxRetries remaining attempt log = (Normal s, log')
    /\ (s = FAILED \/ s = FAILED_AFTER_RETRIES)
    /\ (fetches log' <= fetches log + remaining)%nat.
Proof.
  induction remaining as [|k IH]; intros attempt log Hsum Hnone.
  - exists FAILED, log. repeat split; [left; reflexivity|lia].
  - cbn [attempts]. unfold bind at 1.
    destruct (turn_unusable maxRetries attempt log (Hnone attempt ltac:(lia)))
      as (log1 & F1 & [E|[_ E]]); rewrite E.
    + destruct (IH (S attempt) log1 ltac:(lia) ltac:(intros; apply Hnone; lia))
        as (s & log' & R & Hs & F).
      exists s, log'. repeat split; [exact R|exact Hs|lia].
    + exists FAILED_AFTER_RETRIES, log1. repeat split; [right; reflexivity|lia].
Qed.

(** When every remaining attempt is answered 429, the loop runs out and
    the function returns the sentinel that follows the loop. *)
Lemma attempts_all_rate_limited maxRetries remaining : forall attempt log,
  (attempt + remaining = maxRetries)%nat ->
  (forall i, (attempt <= i < maxRetries)%nat ->
             exists r, network i = FetchResolves r /\ status r = 429) ->
  exists log',
    loop maxRetries remaining attempt log = (Normal FAILED, log')
    /\ fetches log' = (fetches log + remaining)%nat.
Proof.
  induction remaining as [|k IH]; intros attempt log Hsum H429.
  - exists log. split; [reflexivity|lia].
  - cbn [attempts]. unfold bind at 1.
    destruct (H429 attempt ltac:(lia)) as (r & N & S429).
    rewrite (turn_rate_limited maxRetries attempt r log N S429).
    destruct (IH (S attempt)
                (log ++ [Fetch attempt systemInstruction userQuery]
                     ++ [SleepBackoff attempt])%list
                ltac:(lia) ltac:(intros; apply H429; lia))
      as (log' & R & F).
    exists log'. split; [exact R|].
    rewrite F, app_assoc, !fetches_snoc. cbn [is_fetch]. lia.
Qed.

(** The first attempt with a usable text ends the loop with that text;
    nothing is fetched afterwards. *)
Lemma attempts_first_success maxRetries remaining i t : forall attempt log,
  (attempt + remaining = maxRetries)%nat ->
  (attempt <= i < maxRetries)%nat ->
  usable_text network i = Some t ->
  (forall j, (attempt <= j < i)%nat -> usable_text network j = None) ->
  exists log',
    loop maxRetries remaining attempt log = (Normal t, log')
    /\ fetches log' = (fetches log + (i - attempt + 1))%nat.
Proof.
  induction remaining as [|k IH]; intros attempt log Hsum Hi Hsome Hnone; [lia|].
  cbn [attempts]. unfold bind at 1.
  destruct (Nat.eq_dec attempt i) as [->|Hne].
  - rewrite (turn_usable maxRetries i t log Hsome).
    eexists. split; [reflexivity|].
    rewrite fetches_snoc. cbn [is_fetch]. lia.
  - destruct (turn_unusable maxRetries attempt log (Hnone attempt ltac:(lia)))
      as (log1 & F1 & [E|[Last _]]); [rewrite E|lia].
    destruct (IH (S attempt) log1 ltac:(lia) ltac:(lia) Hsome
                ltac:(intros; apply Hnone; lia))
      as (log' & R & F).
    exists log'. split; [exact R|lia].
Qed.

Lemma generateContent_normal (API_KEY : string) (maxRetries : nat) log :
  exists s log',
    generateContent network API_KEY systemInstruction userQuery maxRetries log
    = (Normal s, log').
Proof.
  unfold generateContent. destruct (String.eqb API_KEY "").
  - eexists _, _. reflexivity.
  - apply attempts_never_throw.
Qed.

(** C3. [generateContent] never throws. Without API key it returns the
    offline sentinel and fetches nothing; when none of its attempts
    yields a non-empty text it returns one of the two fixed failure
    sentinels; when every attempt is answered 429 (three in a row for
    the default [maxRetries]) it returns the sentinel that follows the
    loop; and on the first attempt with a non-empty text it returns
    that text without fetching again. *)
Theorem C3_generateContent_never_throws (API_KEY : string) (maxRetries : nat) :
  let run := generateContent network API_KEY systemInstruction userQuery maxRetries [] in
  (exists s log, run = (Normal s, log))
  /\ (API_KEY = "" -> run = (Normal MISSING_KEY, [ConsoleError]))
  /\ (API_KEY <> "" ->
      (forall i, (i < maxRetries)%nat -> usable_text network i = None) ->
      exists s log, run = (Normal s, log)
                    /\ (s = FAILED \/ s = FAILED_AFTER_RETRIES)
                    /\ (fetches log <= maxRetries)%nat)
  /\ (API_KEY <> "" ->
      (forall i, (i < maxRetries)%nat ->
                 exists r, network i = FetchResolves r /\ status r = 429) ->
      exists log, run = (Normal FAILED, log) /\ fetches log = maxRetries)
  /\ (forall i t,
      API_KEY <> "" -> (i < maxRetries)%nat ->
      usable_text network i = Some t ->
      (forall j, (j < i)%nat -> usable_text network j = None) ->
      exists log, run = (Normal t, log) /\ fetches log = S i).
Proof.
  intros run. unfold run, generateContent.
  destruct (String.eqb_spec API_KEY "") as [K|K].
  - split; [eexists _, _; reflexivity|].
    split; [intros _; reflexivity|].
    repeat split; intros; contradiction.
  - split; [apply attempts_never_throw|].
    split; [intros; contradiction|].
    split; [|split].
    + intros _ Hnone.
      destruct (attempts_exhausted maxRetries maxRetries 0 [] ltac:(lia)
                  ltac:(intros; apply Hnone; lia)) as (s & log & R & Hs & F).
      exists s, log. repeat split; [exact R|exact Hs|exact F].
    + intros _ H429.
      destruct (attempts_all_rate_limited maxRetries maxRetries 0 [] ltac:(lia)
                  ltac:(intros; apply H429; lia)) as (log & R & F).
      exists log. split; [exact R|exact F].
    + intros i t _ Hi Hsome Hnone.
      destruct (attempts_first_success maxRetries maxRetries i t 0 [] ltac:(lia)
                  ltac:(lia) Hsome ltac:(intros; apply Hnone; lia)) as (log & R & F).
      exists log. split; [exact R|]. rewrite F. cbn [fetches List.filter length]. lia.
Qed.

End Gemini.

Lemma C3_generateContent_never_throws_witness :
  (exists log,
     GeminiApi.generateContent always_rate_limited "key" "role" "query" 3 []
     = (GeminiApi.Normal GeminiApi.FAILED, log)
     /\ fetches log = 3%nat)
  /\ (exists log,
       GeminiApi.generateContent recovering "key" "role" "query" 3 []
       = (GeminiApi.Normal "Two proxy attempts were logged.", log)
       /\ fetches log = 3%nat).
Proof.
  split.
  - apply (proj1 (proj2 (proj2 (proj2
             (C3_generateContent_never_throws always_rate_limited "role" "query" "key" 3))))).
    + discriminate.
    + intros i _. eexists. split; reflexivity.
  - apply (proj2 (proj2 (proj2 (proj2
             (C3_generateContent_never_throws recovering "role" "query" "key" 3))))
             2%nat "Two proxy attempts were logged.").
    + discriminate.
    + lia.
    + reflexivity.
    + intros [|[|j]] Hj; [reflexivity|reflexivity|lia].
Defined.

(* ===================================================================== *)
(** ** The query translator and the assistant pipeline *)
(* ===================================================================== *)

Section Translator.
Import RagAnalyzer.
Variable today : string.

Lemma append_nil_l (b : string) : "" +:+ b = b.
Proof. reflexivity. Qed.

Lemma append_cons (c : ascii) (a b : string) :
  String c a +:+ b = String c (a +:+ b).
Proof. reflexivity. Qed.

Lemma endsWith_refl (s : string) : endsWith s s = true.
Proof. destruct s; cbn [endsWith]; rewrite String.eqb_refl; reflexivity. Qed.

Lemma endsWith_suffix (s suffix : string) : endsWith (s +:+ suffix) suffix = true.
Proof.
  induction s as [|c s IH].
  - rewrite append_nil_l. apply endsWith_refl.
  - rewrite append_cons. cbn [endsWith]. rewrite IH. apply orb_true_r.
Qed.

Lemma length_app_string (a b : string) :
  String.length (a +:+ b) = (String.length a + String.length b)%nat.
Proof.
  induction a as [|c a IH]; [reflexivity|].
  rewrite append_cons. cbn [String.length]. rewrite IH. reflexivity.
Qed.

(** A label made by rule 3 does not end with the "today" suffix. *)
Lemma activity_label_not_today (name : string) :
  endsWith (name +:+ "'s Activity") " (Today)" = false.
Proof.
  induction name as [|c name IH]; [reflexivity|].
  rewrite append_cons. cbn [endsWith]. rewrite IH, orb_false_r.
  destruct (String.eqb_spec (String c (name +:+ "'s Activity")) " (Today)") as [E|];
    [|reflexivity].
  apply (f_equal String.length) in E. cbn [String.length] in E.
  rewrite length_app_string in E. cbn [String.length] in E. lia.
Qed.

Lemma In_snoc_gte (qb : list filter) :
  In (Gte "timestamp" today) (qb ++ [Gte "timestamp" today])%list.
Proof. apply in_or_app. right. left. reflexivity. Qed.

Ltac translate_case :=
  cbn [fst orb andb negb app template default];
  try discriminate;
  intros [= <- <-];
  rewrite ?endsWith_suffix, ?activity_label_not_today;
  repeat split; intros H;
  solve [ reflexivity
        | discriminate
        | left; reflexivity
        | right; reflexivity
        | cbn [In]; auto 10
        | destruct H; discriminate
        | exfalso; cbn [In] in H; intuition discriminate ].

(** C6. "how many proxies today" is translated to the filters
    is_spoof = true and timestamp >= today with the label
    "Proxy Attempts (Today)"; and whenever a query is built, the
    timestamp filter is present, and the label ends with " (Today)",
    exactly when rules 1-3 set no filter or the question mentions
    "today". *)
Theorem C6_today_filter (c : client) :
  fst (translate today c "how many proxies today")
    = Built [Eq_bool "is_spoof" true; Gte "timestamp" today] "Proxy Attempts (Today)"
  /\ forall userQuestion queryBuilder dataLabel,
      fst (translate today c userQuestion) = Built queryBuilder dataLabel ->
      (In (Gte "timestamp" today) queryBuilder
       <-> rules_1_3_set_filter c userQuestion = false
           \/ mentions userQuestion "today" = true)
      /\ (endsWith dataLabel " (Today)" = true
          <-> rules_1_3_set_filter c userQuestion = false
              \/ mentions userQuestion "today" = true).
Proof.
  split; [reflexivity|].
  intros q qb label. unfold translate, rules_1_3_set_filter.
  destruct (mentions q "ashraf");
    destruct (mentions q "mahaboob");
    cbn [orb andb];
    try (destruct (students_ilike c _) as [[|first rest]|]);
    destruct (mentions q "proxy"), (mentions q "proxies"),
             (mentions q "intruder"), (mentions q "intruders"),
             (mentions q "today");
    translate_case.
Qed.

End Translator.

Section Pipeline.
Import GeminiApi RagAnalyzer.
Variable today : string.
Variable JSON_stringify : list App.log -> string.
Variable generateContent : string -> string -> completion string.

(** C7. When the question mentions a recognised alias, the directory
    lookup returns no student (an empty or missing result), and neither
    the proxy rule nor the intruder rule fired, the pipeline replies
    "cannot find activity logs" after the single directory lookup: no
    log query is made and the generative client is not called. *)
Theorem C7_not_found_short_circuit (c : client) (userQuestion : string) :
  let namePart := if mentions userQuestion "ashraf" then "ashraf" else "mahaboob" in
  let pattern := "%" +:+ namePart +:+ "%" in
  let run := runRAGAnalysis today JSON_stringify generateContent (Some c) userQuestion in
  mentions userQuestion "ashraf" || mentions userQuestion "mahaboob" = true ->
  students_ilike c pattern = None \/ students_ilike c pattern = Some [] ->
  mentions userQuestion "proxy" = false ->
  mentions userQuestion "proxies" = false ->
  mentions userQuestion "intruder" = false ->
  mentions userQuestion "intruders" = false ->
  run = (Normal (not_found_reply namePart), [SelectStudents pattern])
  /\ calls_generateContent (snd run) = false.
Proof.
  intros namePart pattern run Alias Zero P1 P2 I1 I2.
  assert (R : run = (Normal (not_found_reply namePart), [SelectStudents pattern])).
  { unfold run, runRAGAnalysis, translate.
    rewrite P1, P2, I1, I2, Alias. cbn [orb negb].
    fold namePart. fold pattern.
    destruct Zero as [-> | ->]; reflexivity. }
  split; [exact R|]. rewrite R. reflexivity.
Qed.

End Pipeline.

(** "show intruders": rule 2 sets a filter and "today" is not mentioned,
    so no time filter and no suffix. *)
Lemma C6_today_filter_witness :
  (In (RagAnalyzer.Gte "timestamp" "2025-03-01") [RagAnalyzer.Is_null "roll_no"]
   <-> rules_1_3_set_filter empty_store "show intruders" = false
       \/ RagAnalyzer.mentions "show intruders" "today" = true)
  /\ (endsWith "Intruder Sightings" " (Today)" = true
      <-> rules_1_3_set_filter empty_store "show intruders" = false
          \/ RagAnalyzer.mentions "show intruders" "today" = true).
Proof.
  apply (proj2 (C6_today_filter "2025-03-01" empty_store) "show intruders"
           [RagAnalyzer.Is_null "roll_no"] "Intruder Sightings").
  reflexivity.
Defined.

Lemma C7_not_found_short_circuit_witness :
  RagAnalyzer.runRAGAnalysis "2025-03-01" sample_stringify sample_generate
    (Some empty_store) "Where was Ashraf yesterday?"
  = (GeminiApi.Normal
       "AI Assistant: I cannot find activity logs for 'ashraf'. Please check the name or Roll Number.",
     [RagAnalyzer.SelectStudents "%ashraf%"])
  /\ calls_generateContent
       (snd (RagAnalyzer.runRAGAnalysis "2025-03-01" sample_stringify sample_generate
               (Some empty_store) "Where was Ashraf yesterday?")) = false.
Proof.
  apply (C7_not_found_short_circuit "2025-03-01" sample_stringify sample_generate
           empty_store "Where was Ashraf yesterday?").
  - reflexivity.
  - right. reflexivity.
  - reflexivity.
  - reflexivity.
  - reflexivity.
  - reflexivity.
Defined.

(** X27. The assistant pipeline wired to the real client, with its default of
    three attempts: whatever the store and the network answer, a reply
    string comes back and nothing is thrown. *)
Lemma assistant_never_throws
    (network : nat -> GeminiApi.fetch_result) (API_KEY today : string)
    (JSON_stringify : list App.log -> string)
    (supabaseClient : option RagAnalyzer.client) (userQuestion : string) :
  exists reply,
    fst (RagAnalyzer.runRAGAnalysis today JSON_stringify
           (fun systemInstruction userQuery =>
              fst (GeminiApi.generateContent network API_KEY
                     systemInstruction userQuery 3 []))
           supabaseClient userQuestion)
    = GeminiApi.Normal reply.
Proof.
  unfold RagAnalyzer.runRAGAnalysis.
  destruct supabaseClient as [c|]; [|eexists; reflexivity].
  destruct (RagAnalyzer.translate today c userQuestion) as [[reply|qb label] acts];
    [eexists; reflexivity|].
  unfold RagAnalyzer.retrieve_and_generate.
  destruct (RagAnalyzer.logs_select c qb) as [[[|r rows]|] [e|]];
    try (eexists; reflexivity).
  match goal with
  | |- context [GeminiApi.generateContent ?n ?k ?s ?q ?m ?l] =>
      destruct (generateContent_normal n s q k m l) as (text & log' & ->)
  end.
  eexists. reflexivity.
Qed.

(* ===================================================================== *)
(** ** The feed state: buffers, occupancy and the evidence vault *)
(* ===================================================================== *)

(** Case analysis on the connectives of a goal and of its hypotheses. *)
Ltac settle :=
  repeat match goal with
  | |- _ /\ _ => split
  | |- _ <-> _ => split
  | |- _ -> _ => intro
  | H : _ /\ _ |- _ => destruct H
  | H : _ \/ _ |- _ => destruct H
  | H : exists _, _ |- _ => destruct H
  end;
  try discriminate; try congruence; try tauto;
  try (eexists; split; [reflexivity|assumption]).

Section FeedState.
Import App AppComponent.

Lemma computeDelta_lower_bound (o s : Z) (ev : log) :
  Z.max 0 s <= o ->
  Z.max 0 (s + occupancy_step 0 ev) <= computeDelta o (Some ev).
Proof.
  intros H. unfold computeDelta, occupancy_step.
  destruct (String.eqb (event_type ev) "ENTRY"); cbn [Z.add].
  - destruct (String.eqb (event_type ev) "EXIT"); lia.
  - destruct (String.eqb (event_type ev) "EXIT"); lia.
Qed.

Lemma fold_on_notification_occupancy (evs : list log_row) : forall st s,
  Z.max 0 s <= occupancy st ->
  Z.max 0 (s + signed_sum (List.map to_log evs))
  <= occupancy (fold_left on_notification evs st).
Proof.
  induction evs as [|ev evs IH]; intros st s H; cbn [fold_left List.map].
  - rewrite signed_sum_nil, Z.add_0_r. exact H.
  - rewrite signed_sum_cons, Z.add_assoc. apply IH.
    cbn [on_notification occupancy]. apply computeDelta_lower_bound. exact H.
Qed.

(** X1. The occupancy kept by the live callback never falls below the batch
    recompute of the rows loaded at start followed by the rows notified
    since, and is never negative. *)
Theorem live_occupancy_at_least_batch
    (supabase : option store) (st : feed) (evs : list log_row) :
  let after := fold_left on_notification evs (initial_load supabase true st) in
  computeOccupancyFromLogs (List.map to_log (fetchLastLogs supabase 20 ++ evs)%list)
  <= occupancy after
  /\ 0 <= occupancy after.
Proof.
  intros after.
  assert (H : Z.max 0 (signed_sum (List.map to_log (fetchLastLogs supabase 20))
                       + signed_sum (List.map to_log evs))
              <= occupancy after).
  { apply fold_on_notification_occupancy.
    cbn [initial_load negb occupancy]. unfold computeOccupancyFromLogs.
    rewrite occupancy_scan_signed. lia. }
  unfold computeOccupancyFromLogs.
  rewrite List.map_app, occupancy_scan_signed, signed_sum_app.
  split; lia.
Qed.

Lemma take_app_take {A} (l1 l2 : list A) : forall n m : nat,
  (n <= m)%nat -> take n (l1 ++ take m l2)%list = take n (l1 ++ l2)%list.
Proof.
  induction l1 as [|x l1 IH]; intros n m H; cbn [app].
  - rewrite take_take. f_equal. lia.
  - destruct n as [|n]; [reflexivity|]. cbn [take]. f_equal. apply IH. lia.
Qed.

Lemma fold_on_notification_events (evs : list log_row) : forall st,
  evs <> [] ->
  events (fold_left on_notification evs st) = take 100 (rev evs ++ events st)%list.
Proof.
  induction evs as [|ev evs IH]; intros st N; [contradiction|].
  cbn [fold_left]. destruct evs as [|ev' evs].
  - reflexivity.
  - rewrite IH by discriminate. cbn [on_notification events].
    change (rev (ev :: ev' :: evs)) with (rev (ev' :: evs) ++ [ev])%list.
    rewrite <- (app_assoc (rev (ev' :: evs)) [ev]).
    apply take_app_take. lia.
Qed.

Lemma fold_on_notification_gallery (evs : list log_row) : forall st,
  (length (gallery st) <= 8)%nat ->
  gallery (fold_left on_notification evs st)
  = take 8 (rev (List.filter live_admits evs) ++ gallery st)%list.
Proof.
  induction evs as [|ev evs IH]; intros st H; cbn [fold_left List.filter rev app].
  - rewrite take_ge by exact H. reflexivity.
  - rewrite IH.
    + cbn [on_notification gallery]. destruct (live_admits ev).
      * cbn [rev]. rewrite <- app_assoc. apply take_app_take. lia.
      * reflexivity.
    + cbn [on_notification gallery]. destruct (live_admits ev); [|exact H].
      rewrite length_take. lia.
Qed.

(** X3. The two buffers keep the newest rows first: after at least one
    notification the event buffer holds the 100 newest rows, and the
    vault buffer the 8 newest admitted rows. *)
Theorem buffers_keep_newest (st : feed) (evs : list log_row) :
  evs <> [] -> (length (gallery st) <= 8)%nat ->
  let after := fold_left on_notification evs st in
  events after = take 100 (rev evs ++ events st)%list
  /\ gallery after = take 8 (rev (List.filter live_admits evs) ++ gallery st)%list
  /\ (length (events after) <= 100)%nat
  /\ (length (gallery after) <= 8)%nat.
Proof.
  intros N H after. unfold after.
  rewrite (fold_on_notification_events evs st N),
          (fold_on_notification_gallery evs st H), !length_take.
  repeat split; lia.
Qed.

(** [hasRollNew] of the callback is [hasRoll] of the threat counter. *)
Lemma hasRollNew_hasRoll (l : log_row) : hasRollNew l = hasRoll (to_log l).
Proof. reflexivity. Qed.

(** The feed's test is the callback's test weakened by truthiness. *)
Lemma feed_hasRoll_split (ev : log_row) :
  feed_hasRoll ev = roll_truthy (row_roll_no ev) && hasRollNew ev.
Proof.
  unfold feed_hasRoll, hasRollNew.
  destruct (row_roll_no ev) as [|s|t im]; cbn [roll_truthy roll_String default].
  - reflexivity.
  - reflexivity.
  - reflexivity.
Qed.

(** On a string the truthiness test adds nothing: a string that does not
    trim to the empty string is not empty. *)
Lemma string_roll_agree (s : string) :
  negb (String.eqb s "") && negb (String.eqb (JsString.trim s) "")
  = negb (String.eqb (JsString.trim s) "").
Proof.
  destruct (String.eqb_spec s "") as [->|]; reflexivity.
Qed.

(** X5. The initial load and the live callback do not admit the same rows to
    the vault. The callback alone admits exactly the unspoofed rows with
    evidence whose roll value is truthy and has a blank [String] image
    (a non-empty string of white space); the initial load alone admits
    exactly the unspoofed rows with evidence whose roll value is falsy
    and has a non-blank [String] image (the number 0). On rows whose
    roll number is a string or absent, whatever the initial load admits
    the callback admits too. *)
Theorem vault_admission_differs (l : log_row) :
  (live_admits l = true /\ initial_admits l = false
   <-> row_is_spoof l = false /\ JsString.truthy (row_evidence_url l) = true
       /\ roll_truthy (row_roll_no l) = true
       /\ exists r, roll_String (row_roll_no l) = Some r /\ JsString.trim r = "")
  /\ (initial_admits l = true /\ live_admits l = false
      <-> row_is_spoof l = false /\ JsString.truthy (row_evidence_url l) = true
          /\ roll_truthy (row_roll_no l) = false
          /\ exists r, roll_String (row_roll_no l) = Some r /\ JsString.trim r <> "")
  /\ ((row_roll_no l = RollNull \/ exists s, row_roll_no l = RollString s) ->
      initial_admits l = true -> live_admits l = true)
  /\ (row_roll_no l = roll_of_number 0 -> row_is_spoof l = false ->
      JsString.truthy (row_evidence_url l) = true ->
      initial_admits l = true /\ live_admits l = false).
Proof.
  unfold initial_admits, live_admits, hasRollNew, roll_of_number.
  destruct (row_is_spoof l); cbn [orb andb].
  { destruct (JsString.truthy (row_evidence_url l)); settle. }
  destruct (JsString.truthy (row_evidence_url l)); rewrite ?andb_true_r, ?andb_false_r.
  2: { settle. }
  destruct (row_roll_no l) as [|s|t im]; cbn [roll_truthy roll_String negb].
  - settle.
  - destruct (String.eqb_spec (JsString.trim s) "") as [T|T];
      destruct (String.eqb_spec s "") as [E|E]; cbn [negb].
    + settle.
    + settle.
    + subst s. exfalso. apply T. reflexivity.
    + settle.
  - destruct (String.eqb_spec (JsString.trim im) "") as [T|T];
      destruct t; cbn [negb].
    + settle.
    + settle. injection H as ->. vm_compute in T. discriminate.
    + settle.
    + settle.
Qed.

Lemma computeDelta_nonneg (o : Z) (row : option log) :
  0 <= o -> 0 <= computeDelta o row.
Proof.
  intros H. unfold computeDelta. destruct row as [r|]; [|exact H].
  destruct (String.eqb (event_type r) "ENTRY"); [lia|].
  destruct (String.eqb (event_type r) "EXIT"); lia.
Qed.

Lemma feed_ok_happen (st : feed) (h : happening) : feed_ok st -> feed_ok (happen st h).
Proof.
  unfold feed_ok. intros (L & F & O).
  destruct h as [supabase mounted|newRow]; cbn [happen].
  - unfold initial_load. destruct mounted; cbn [negb]; [|repeat split; assumption].
    cbn [gallery occupancy]. repeat split.
    + rewrite length_take. lia.
    + apply Forall_take. apply List.Forall_forall. intros g Hg.
      apply List.filter_In in Hg. right. apply Hg.
    + unfold computeOccupancyFromLogs. lia.
  - unfold on_notification. cbn [gallery occupancy]. repeat split.
    + destruct (live_admits newRow); [rewrite length_take; lia|exact L].
    + destruct (live_admits newRow) eqn:A; [|exact F].
      apply Forall_take. constructor; [left; exact A|exact F].
    + apply computeDelta_nonneg, O.
Qed.

Lemma feed_ok_fold (hs : list happening) : forall st,
  feed_ok st -> feed_ok (fold_left happen hs st).
Proof.
  induction hs as [|h hs IH]; intros st H; [exact H|].
  cbn [fold_left]. apply IH, feed_ok_happen, H.
Qed.

(** What either admission test gives about a row. *)
Lemma admitted_row (g : log_row) :
  live_admits g = true \/ initial_admits g = true ->
  JsString.truthy (row_evidence_url g) = true
  /\ (row_is_spoof g = true \/ hasRoll (to_log g) = false
      \/ roll_truthy (row_roll_no g) = false).
Proof.
  rewrite <- hasRollNew_hasRoll. unfold live_admits, initial_admits.
  intros [A|A]; apply andb_true_iff in A as [A1 A2]; (split; [exact A2|]);
    apply orb_true_iff in A1 as [Sp|R]; auto;
    apply negb_true_iff in R; auto.
Qed.

Lemma run_feed_ok (hs : list happening) :
  (length (gallery (run hs)) <= 8)%nat
  /\ Forall (fun g => JsString.truthy (row_evidence_url g) = true
                      /\ (row_is_spoof g = true \/ hasRoll (to_log g) = false
                          \/ roll_truthy (row_roll_no g) = false))
            (gallery (run hs))
  /\ 0 <= occupancy (run hs).
Proof.
  destruct (feed_ok_fold hs feed0) as (L & F & O).
  { repeat split; [cbn; lia|constructor|cbn; lia]. }
  fold (run hs) in L, F, O. split; [exact L|split; [|exact O]].
  eapply Forall_impl; [exact F|]. intros g A. apply admitted_row, A.
Qed.

(** X4. Whatever loads and notifications happen, in any order: the vault
    holds at most 8 rows, each with an evidence URL and each spoofed, or
    without roll number in the sense of the threat counter, or with a
    falsy roll value; the occupancy is not negative. The third case is
    real: a load can put into the vault an unspoofed row that the threat
    counter treats as identified (roll number 0). *)
Theorem vault_and_occupancy_invariant (hs : list happening) :
  (length (gallery (run hs)) <= 8)%nat
  /\ Forall (fun g => JsString.truthy (row_evidence_url g) = true
                      /\ (row_is_spoof g = true \/ hasRoll (to_log g) = false
                          \/ roll_truthy (row_roll_no g) = false))
            (gallery (run hs))
  /\ 0 <= occupancy (run hs)
  /\ (gallery (run [Loaded (Some zero_roll_store) true]) = [zero_roll_row]
      /\ row_is_spoof zero_roll_row = false
      /\ hasRoll (to_log zero_roll_row) = true).
Proof.
  destruct (feed_ok_fold hs feed0) as (L & F & O).
  { repeat split; [cbn; lia|constructor|cbn; lia]. }
  fold (run hs) in L, F, O. split; [exact L|split; [|split; [exact O|]]].
  - eapply Forall_impl; [exact F|]. intros g A. apply admitted_row, A.
  - repeat split; reflexivity.
Qed.

(** X6. Every tile of the evidence vault shows an image (the placeholder
    branch is never taken) and there are at most 6 tiles; a tile
    captioned INTRUDER is an unspoofed row that has no roll number in
    the sense of the threat counter or whose roll value is falsy. The
    caption can sit on a row the threat counter treats as identified
    (roll number 0 delivered by a load). *)
Theorem vault_tiles_always_have_image (hs : list happening) :
  Forall (fun t => is_Some (tile_image t)) (render_vault (run hs))
  /\ Forall (fun g => tile_image (vault_tile g) = row_evidence_url g
                      /\ (tile_caption (vault_tile g) = "INTRUDER" ->
                          row_is_spoof g = false
                          /\ (hasRoll (to_log g) = false
                              \/ roll_truthy (row_roll_no g) = false)))
            (take 6 (gallery (run hs)))
  /\ (length (render_vault (run hs)) <= 6)%nat
  /\ (render_vault (run [Loaded (Some zero_roll_store) true])
      = [ {| tile_image := row_evidence_url zero_roll_row; tile_caption := "INTRUDER" |} ]
      /\ hasRoll (to_log zero_roll_row) = true).
Proof.
  destruct (run_feed_ok hs) as (_ & F & _).
  assert (G : Forall (fun g => tile_image (vault_tile g) = row_evidence_url g
                               /\ is_Some (row_evidence_url g)
                               /\ (tile_caption (vault_tile g) = "INTRUDER" ->
                                   row_is_spoof g = false
                                   /\ (hasRoll (to_log g) = false
                                       \/ roll_truthy (row_roll_no g) = false)))
                     (take 6 (gallery (run hs)))).
  { apply Forall_take. eapply Forall_impl; [exact F|].
    intros g (E & SR). unfold vault_tile. cbn [tile_image tile_caption].
    rewrite E. split; [reflexivity|split].
    - destruct (row_evidence_url g); [eexists; reflexivity|discriminate].
    - destruct (row_is_spoof g); [discriminate|]. intros _. split; [reflexivity|].
      destruct SR as [D|SR]; [discriminate|exact SR]. }
  split; [|split; [|split]].
  - unfold render_vault. apply Forall_fmap. eapply Forall_impl; [exact G|].
    intros g (E & I & _). unfold compose. rewrite E. exact I.
  - eapply Forall_impl; [exact G|]. intros g (E & _ & C). split; assumption.
  - unfold render_vault. rewrite length_map, length_take. lia.
  - split; reflexivity.
Qed.

(** X7. A row of the feed is badged PROXY exactly when it is spoofed, and
    INTRUDER exactly when it is not spoofed and fails the feed's own
    roll test; in that case it is named UNKNOWN. The feed's test is the
    threat counter's test on a truthy roll value: the two agree on every
    row whose roll number is a string or absent, and differ exactly on a
    falsy roll value with a non-blank [String] image (the number 0),
    which the feed badges INTRUDER and names UNKNOWN while the threat
    counter treats it as identified. The evidence image is shown
    whenever the live callback would admit the row to the vault, and for
    string or absent roll numbers only then. *)
Theorem feed_row_classification (map : directory) (ev : log_row) :
  (item_badge (feed_row map ev) = Some "PROXY" <-> row_is_spoof ev = true)
  /\ (item_badge (feed_row map ev) = Some "INTRUDER"
      <-> row_is_spoof ev = false /\ feed_hasRoll ev = false)
  /\ (feed_hasRoll ev = false -> item_name (feed_row map ev) = UnknownName)
  /\ feed_hasRoll ev = roll_truthy (row_roll_no ev) && hasRoll (to_log ev)
  /\ ((row_roll_no ev = RollNull \/ exists s, row_roll_no ev = RollString s) ->
      feed_hasRoll ev = hasRoll (to_log ev))
  /\ (feed_hasRoll ev <> hasRoll (to_log ev)
      <-> roll_truthy (row_roll_no ev) = false /\ hasRoll (to_log ev) = true)
  /\ (is_Some (item_evidence (feed_row map ev))
      <-> (row_is_spoof ev || negb (feed_hasRoll ev))
          && JsString.truthy (row_evidence_url ev) = true)
  /\ (live_admits ev = true -> is_Some (item_evidence (feed_row map ev)))
  /\ ((row_roll_no ev = RollNull \/ exists s, row_roll_no ev = RollString s) ->
      is_Some (item_evidence (feed_row map ev)) -> live_admits ev = true)
  /\ (item_badge (feed_row map zero_roll_row) = Some "INTRUDER"
      /\ item_name (feed_row map zero_roll_row) = UnknownName
      /\ hasRoll (to_log zero_roll_row) = true).
Proof.
  assert (Sp : feed_hasRoll ev = roll_truthy (row_roll_no ev) && hasRoll (to_log ev)).
  { rewrite <- hasRollNew_hasRoll. apply feed_hasRoll_split. }
  assert (Ag : (row_roll_no ev = RollNull \/ exists s, row_roll_no ev = RollString s) ->
               feed_hasRoll ev = hasRoll (to_log ev)).
  { rewrite Sp. unfold hasRoll, to_log. cbn [roll_no].
    intros [E|[s E]]; rewrite E; cbn [roll_truthy roll_String]; [reflexivity|].
    apply string_roll_agree. }
  assert (Ev : is_Some (item_evidence (feed_row map ev))
               <-> (row_is_spoof ev || negb (feed_hasRoll ev))
                   && JsString.truthy (row_evidence_url ev) = true).
  { unfold feed_row.
    destruct (row_is_spoof ev), (feed_hasRoll ev); cbn [negb orb andb];
      destruct (JsString.truthy (row_evidence_url ev)) eqn:T;
      try destruct (String.eqb (row_event_type ev) "ENTRY");
      cbn [item_evidence]; split; try discriminate; try tauto;
      try (intros [x Hx]; discriminate);
      try (intros _; destruct (row_evidence_url ev); [eexists; reflexivity|discriminate]). }
  split; [|split; [|split; [|split; [exact Sp|split; [exact Ag|split;
    [|split; [exact Ev|split; [|split]]]]]]]].
  - unfold feed_row.
    destruct (row_is_spoof ev), (feed_hasRoll ev); cbn [negb];
      try destruct (String.eqb (row_event_type ev) "ENTRY");
      cbn [item_badge]; split; try discriminate; try tauto.
  - unfold feed_row.
    destruct (row_is_spoof ev), (feed_hasRoll ev); cbn [negb];
      try destruct (String.eqb (row_event_type ev) "ENTRY");
      cbn [item_badge]; split; try discriminate; try tauto;
      try (intros [D _]; discriminate); try (intros [_ D]; discriminate).
  - intros H. unfold feed_row. rewrite H.
    destruct (row_is_spoof ev); cbn [negb item_name]; reflexivity.
  - rewrite Sp.
    destruct (roll_truthy (row_roll_no ev)), (hasRoll (to_log ev)); cbn [andb];
      settle.
  - intros A. apply Ev. unfold live_admits in A. rewrite hasRollNew_hasRoll in A.
    rewrite Sp.
    destruct (row_is_spoof ev); cbn [orb andb] in *; [exact A|].
    destruct (hasRoll (to_log ev)); cbn [negb andb] in *; [discriminate|].
    rewrite andb_false_r. exact A.
  - intros R I. apply Ev in I. rewrite (Ag R) in I.
    unfold live_admits. rewrite hasRollNew_hasRoll. exact I.
  - repeat split; reflexivity.
Qed.

End FeedState.

(* ===================================================================== *)
(** ** The header counters *)
(* ===================================================================== *)

Section Header.
Import App.
Variable random : nat -> draw.

Lemma first_status_cons (ev : log) (logs : list log) (r : string) :
  first_status (ev :: logs) r
  = if hasRoll ev && bool_decide (roll_no ev = Some r)
    then Some (event_type ev) else first_status logs r.
Proof.
  unfold first_status. rewrite filter_cons.
  destruct (hasRoll ev) eqn:H; cbn [andb].
  - case_bool_decide as E.
    + rewrite decide_True by (split; [reflexivity|exact E]). reflexivity.
    + rewrite decide_False by (intros [_ E']; contradiction). reflexivity.
  - rewrite decide_False by (intros [D _]; discriminate). reflexivity.
Qed.

Lemma hasRoll_roll_no (ev : log) :
  hasRoll ev = true -> roll_no ev = Some (default "" (roll_no ev)).
Proof. unfold hasRoll. destruct (roll_no ev); [reflexivity|discriminate]. Qed.

Lemma scan_step_rollLatest (st : scan) (ev : log) (r : string) :
  rollLatest (scan_step random st ev) !! r
  = match rollLatest st !! r with
    | Some v => Some v
    | None => if hasRoll ev && bool_decide (roll_no ev = Some r)
              then Some (event_type ev) else None
    end.
Proof.
  unfold scan_step. destruct (hasRoll ev) eqn:H; cbn [andb].
  - pose proof (hasRoll_roll_no ev H) as R.
    destruct (decide (is_Some (rollLatest st !! default "" (roll_no ev)))) as [I|I].
    + destruct (rollLatest st !! r) eqn:L; [reflexivity|].
      case_bool_decide as E; [|reflexivity].
      rewrite R in E. injection E as <-. rewrite L in I. destruct I; discriminate.
    + cbn [rollLatest]. case_bool_decide as E.
      * rewrite R in E. injection E as <-.
        rewrite lookup_insert_eq.
        destruct (rollLatest st !! default "" (roll_no ev)) eqn:L; [|reflexivity].
        exfalso. apply I. eexists. reflexivity.
      * rewrite lookup_insert_ne by (intros <-; apply E, R).
        destruct (rollLatest st !! r); reflexivity.
  - destruct (intruder_key random ev (draws st)) as [k n].
    destruct (negb _ && _); cbn [rollLatest]; destruct (rollLatest st !! r); reflexivity.
Qed.

Lemma fold_scan_rollLatest (logs : list log) (r : string) : forall st,
  rollLatest (fold_left (scan_step random) logs st) !! r
  = match rollLatest st !! r with
    | Some v => Some v
    | None => first_status logs r
    end.
Proof.
  induction logs as [|ev logs IH]; intros st; cbn [fold_left].
  - destruct (rollLatest st !! r); reflexivity.
  - rewrite IH, scan_step_rollLatest, first_status_cons.
    destruct (rollLatest st !! r); [reflexivity|].
    destruct (hasRoll ev && bool_decide (roll_no ev = Some r)); reflexivity.
Qed.

Lemma scan_logs_rollLatest (logs : list log) (r : string) :
  rollLatest (scan_logs random logs) !! r = first_status logs r.
Proof.
  unfold scan_logs. rewrite fold_scan_rollLatest. cbn [scan0 rollLatest].
  rewrite lookup_empty. reflexivity.
Qed.

(** X8. The status recorded for a roll number is the event type of the first
    row of the window that carries it: later (older) rows never
    overwrite it, and rows without roll number and the random draws play
    no part. *)
Theorem rollLatest_is_first_seen (logs : list log) (r : string) :
  rollLatest (scan_logs random logs) !! r = first_status logs r.
Proof.
  unfold scan_logs. rewrite fold_scan_rollLatest. cbn [scan0 rollLatest].
  rewrite lookup_empty. reflexivity.
Qed.

End Header.

Lemma first_status_identified_only (logs : list App.log) (r : string) :
  first_status (filter (fun ev => App.hasRoll ev = true) logs) r = first_status logs r.
Proof.
  induction logs as [|ev logs IH]; [reflexivity|].
  rewrite filter_cons. destruct (App.hasRoll ev) eqn:H.
  - rewrite decide_True by reflexivity. rewrite !first_status_cons, H, IH. reflexivity.
  - rewrite decide_False by discriminate. rewrite first_status_cons, H. exact IH.
Qed.

Lemma uniqueIn_size (random : nat -> App.draw) (logs : list App.log) :
  App.uniqueIn (App.computeUniqueInAndIntruders random logs)
  = size (filter (fun kv : string * string => snd kv = "ENTRY")
                 (App.rollLatest (App.scan_logs random logs))).
Proof. destruct logs; reflexivity. Qed.

(** X9. The unique-in count depends only on the rows that carry a roll
    number: dropping the other rows, or changing what [Math.random]
    returns, leaves it unchanged. *)
Theorem uniqueIn_ignores_anonymous_rows
    (random random' : nat -> App.draw) (logs : list App.log) :
  App.uniqueIn (App.computeUniqueInAndIntruders random logs)
  = App.uniqueIn (App.computeUniqueInAndIntruders random'
                    (filter (fun ev => App.hasRoll ev = true) logs)).
Proof.
  rewrite !uniqueIn_size. f_equal. f_equal. apply map_eq. intros r.
  rewrite !scan_logs_rollLatest, first_status_identified_only. reflexivity.
Qed.

Section HeaderBounds.
Import App.
Variable random : nat -> draw.

Local Abbreviation inside m :=
  (size (filter (fun kv : string * string => snd kv = "ENTRY") m)).

Lemma scan_step_inside_bound (st : scan) (ev : log) :
  (inside (rollLatest (scan_step random st ev))
   <= inside (rollLatest st)
      + (if hasRoll ev && String.eqb (event_type ev) "ENTRY" then 1 else 0))%nat.
Proof.
  unfold scan_step. destruct (hasRoll ev) eqn:H; cbn [andb].
  - destruct (decide (is_Some (rollLatest st !! default "" (roll_no ev)))) as [I|I];
      [lia|].
    cbn [rollLatest].
    assert (L : rollLatest st !! default "" (roll_no ev) = None).
    { destruct (rollLatest st !! default "" (roll_no ev)) eqn:L; [|reflexivity].
      exfalso. apply I. eexists. reflexivity. }
    destruct (String.eqb_spec (event_type ev) "ENTRY") as [E|E].
    + rewrite map_filter_insert_True by exact E.
      rewrite map_size_insert_None; [lia|].
      apply map_lookup_filter_None. left. exact L.
    + rewrite map_filter_insert_False by exact E.
      rewrite delete_id by exact L. lia.
  - destruct (intruder_key random ev (draws st)) as [k n].
    destruct (negb _ && _); cbn [rollLatest]; lia.
Qed.

Lemma fold_scan_inside_bound (logs : list log) : forall st,
  (inside (rollLatest (fold_left (scan_step random) logs st))
   <= inside (rollLatest st)
      + length (filter (fun ev => hasRoll ev = true /\ event_type ev = "ENTRY") logs))%nat.
Proof.
  induction logs as [|ev logs IH]; intros st; cbn [fold_left].
  - cbn. lia.
  - specialize (IH (scan_step random st ev)).
    pose proof (scan_step_inside_bound st ev) as B.
    rewrite filter_cons.
    destruct (hasRoll ev) eqn:H; cbn [andb] in B.
    + destruct (String.eqb_spec (event_type ev) "ENTRY") as [E|E].
      * rewrite decide_True by (split; [reflexivity|exact E]). cbn [length]. lia.
      * rewrite decide_False by (intros [_ E']; contradiction). lia.
    + rewrite decide_False by (intros [D _]; discriminate). lia.
Qed.

Lemma disjoint_filters_length (logs : list log) :
  (length (filter (fun ev => hasRoll ev = true /\ event_type ev = "ENTRY") logs)
   + length (filter (fun ev => hasRoll ev = false /\ event_type ev = "ENTRY") logs)
   <= length logs)%nat.
Proof.
  induction logs as [|ev logs IH]; [cbn; lia|].
  rewrite !filter_cons.
  destruct (decide (hasRoll ev = true /\ event_type ev = "ENTRY")) as [[A _]|];
    destruct (decide (hasRoll ev = false /\ event_type ev = "ENTRY")) as [[B _]|];
    cbn [length]; try lia.
  congruence.
Qed.

(** X10. The two header counters are bounded by the rows that can feed them:
    unique-in by the ENTRY rows with a roll number, the threat count by
    the ENTRY rows without one, hence their sum by the window length. *)
Theorem header_counters_bounded (logs : list log) :
  let c := computeUniqueInAndIntruders random logs in
  (uniqueIn c
   <= length (filter (fun ev => hasRoll ev = true /\ event_type ev = "ENTRY") logs))%nat
  /\ (intruderCount c
      <= length (filter (fun ev => hasRoll ev = false /\ event_type ev = "ENTRY") logs))%nat
  /\ (uniqueIn c + intruderCount c <= length logs)%nat.
Proof.
  intros c. unfold c.
  assert (U : (uniqueIn (computeUniqueInAndIntruders random logs)
               <= length (filter (fun ev => hasRoll ev = true /\ event_type ev = "ENTRY")
                                 logs))%nat).
  { rewrite uniqueIn_size. unfold scan_logs.
    pose proof (fold_scan_inside_bound logs scan0) as B.
    cbn [scan0 rollLatest] in B. rewrite map_filter_empty, map_size_empty in B. lia. }
  assert (T : (intruderCount (computeUniqueInAndIntruders random logs)
               <= length (filter (fun ev => hasRoll ev = false /\ event_type ev = "ENTRY")
                                 logs))%nat).
  { rewrite intruderCount_size. unfold scan_logs.
    pose proof (fold_scan_seen_bound random logs scan0) as B.
    cbn [scan0 intruderSeen] in B. rewrite size_empty in B. lia. }
  pose proof (disjoint_filters_length logs) as D.
  repeat split; lia.
Qed.

Lemma intruder_key_string (ev : log) (n : nat) :
  JsString.truthy (evidence_url ev) = true \/ JsString.truthy (timestamp ev) = true ->
  intruder_key random ev n = (inl (string_key ev), n).
Proof.
  intros H. unfold intruder_key, string_key.
  destruct (JsString.truthy (evidence_url ev)); [reflexivity|].
  destruct H as [H|H]; [discriminate|]. rewrite H. reflexivity.
Qed.

Lemma scan_step_string_key (st : scan) (ev : log) :
  (hasRoll ev = false -> event_type ev = "ENTRY" ->
   JsString.truthy (evidence_url ev) = true \/ JsString.truthy (timestamp ev) = true) ->
  intruderSeen (scan_step random st ev)
  = (if negb (hasRoll ev) && String.eqb (event_type ev) "ENTRY"
     then {[ inl (string_key ev) ]} else ∅) ∪ intruderSeen st.
Proof.
  intros K. unfold scan_step. destruct (hasRoll ev) eqn:H; cbn [negb andb].
  - rewrite union_empty_l_L. destruct (decide _); reflexivity.
  - destruct (String.eqb_spec (event_type ev) "ENTRY") as [E|E].
    + rewrite (intruder_key_string ev _ (K eq_refl E)), andb_true_r.
      case_bool_decide as B; cbn [negb intruderSeen]; [|reflexivity].
      symmetry. apply subseteq_union_1_L, singleton_subseteq_l. exact B.
    + destruct (intruder_key random ev (draws st)) as [k n].
      rewrite andb_false_r, union_empty_l_L. reflexivity.
Qed.

Lemma fold_scan_string_keys (logs : list log) : forall st,
  Forall (fun ev => hasRoll ev = false -> event_type ev = "ENTRY" ->
                    JsString.truthy (evidence_url ev) = true
                    \/ JsString.truthy (timestamp ev) = true) logs ->
  intruderSeen (fold_left (scan_step random) logs st)
  = list_to_set
      (map (fun ev => inl (string_key ev))
           (filter (fun ev => hasRoll ev = false /\ event_type ev = "ENTRY") logs))
    ∪ intruderSeen st.
Proof.
  induction logs as [|ev logs IH]; intros st F; cbn [fold_left].
  - cbn. rewrite union_empty_l_L. reflexivity.
  - inversion F as [|? ? K F']; subst.
    rewrite (IH _ F'), (scan_step_string_key st ev K), filter_cons.
    destruct (hasRoll ev) eqn:H; cbn [negb andb].
    + rewrite decide_False by (intros [D _]; discriminate).
      rewrite union_empty_l_L. reflexivity.
    + destruct (String.eqb_spec (event_type ev) "ENTRY") as [E|E].
      * rewrite decide_True by (split; [reflexivity|exact E]).
        cbn [map]. rewrite list_to_set_cons.
        apply leibniz_equiv. rewrite <- !(assoc_L (∪)).
        rewrite (comm (∪) (list_to_set _) ({[ _ ]} ∪ _)).
        rewrite <- !(assoc (∪)). f_equiv. apply (comm (∪)).
      * rewrite decide_False by (intros [_ E']; contradiction).
        rewrite union_empty_l_L. reflexivity.
Qed.

(** X11. When every ENTRY row without roll number carries an evidence URL or
    a timestamp, the threat count is the number of distinct keys
    (evidence URL, else timestamp) among those rows, whatever
    [Math.random] returns. *)
Theorem threat_count_is_distinct_keys (logs : list log) :
  Forall (fun ev => hasRoll ev = false -> event_type ev = "ENTRY" ->
                    JsString.truthy (evidence_url ev) = true
                    \/ JsString.truthy (timestamp ev) = true) logs ->
  intruderCount (computeUniqueInAndIntruders random logs)
  = size (list_to_set
            (map (fun ev => inl (string_key ev))
                 (filter (fun ev => hasRoll ev = false /\ event_type ev = "ENTRY") logs))
          : gset key).
Proof.
  intros F. rewrite intruderCount_size. unfold scan_logs.
  rewrite (fold_scan_string_keys logs scan0 F). cbn [scan0 intruderSeen].
  rewrite union_empty_r_L. reflexivity.
Qed.

End HeaderBounds.

(* ===================================================================== *)
(** ** The student directory and the lookup *)
(* ===================================================================== *)

Section Directory.
Import App AppComponent.

Lemma last_row_cons (s : student_row) (rows : list student_row) (r : string) :
  last_row (s :: rows) r
  = match last_row rows r with
    | Some x => Some x
    | None => if String.eqb (s_roll_no s) r then Some s else None
    end.
Proof.
  unfold last_row. rewrite filter_cons.
  destruct (String.eqb_spec (s_roll_no s) r) as [E|E].
  - rewrite decide_True by exact E.
    destruct (filter (fun s0 => s_roll_no s0 = r) rows) as [|y ys] eqn:F; [reflexivity|].
    rewrite last_cons. destruct (last (y :: ys)) eqn:L; [reflexivity|].
    rewrite last_cons in L. destruct (last ys); discriminate.
  - rewrite decide_False by exact E. destruct (last _); reflexivity.
Qed.

Lemma obj_set_ordinary (map : directory) (k : string) (v : option string) :
  k <> "__proto__" ->
  obj_set map k v = {| own := <[k := v]> (own map); proto_null := proto_null map |}.
Proof.
  intros N. unfold obj_set.
  destruct (String.eqb_spec k "__proto__"); [contradiction|reflexivity].
Qed.

Lemma fold_obj_set (rows : list student_row) (r : string) : forall map,
  Forall (fun s => s_roll_no s <> "__proto__") rows ->
  let filled := fold_left (fun m s => obj_set m (s_roll_no s) (s_full_name s)) rows map in
  own filled !! r
  = match last_row rows r with
    | Some s => Some (s_full_name s)
    | None => own map !! r
    end
  /\ proto_null filled = proto_null map.
Proof.
  induction rows as [|s rows IH]; intros map F filled; [split; reflexivity|].
  inversion F as [|? ? N F']; subst.
  unfold filled. cbn [fold_left].
  destruct (IH (obj_set map (s_roll_no s) (s_full_name s)) F') as [L P].
  rewrite L, P, last_row_cons, (obj_set_ordinary map _ _ N). cbn [own proto_null].
  split; [|reflexivity].
  destruct (last_row rows r); [reflexivity|].
  destruct (String.eqb_spec (s_roll_no s) r) as [<-|E].
  - rewrite lookup_insert_eq. reflexivity.
  - rewrite lookup_insert_ne by exact E. reflexivity.
Qed.

Lemma fetchStudents_get (db : store) (rows : list student_row) (r : string) :
  select_students db = StudentsAnswer (Some rows) None ->
  Forall (fun s => s_roll_no s <> "__proto__") rows ->
  r ∉ Object_prototype_names ->
  obj_get (fetchStudents (Some db)) r = name_of_row (last_row rows r).
Proof.
  intros A F O. unfold fetchStudents. rewrite A. cbn [default]. unfold id.
  destruct (fold_obj_set rows r empty_directory F) as [L P].
  unfold obj_get. rewrite L, P. cbn [empty_directory own proto_null negb andb].
  rewrite lookup_empty. unfold name_of_row.
  destruct (last_row rows r) as [s|].
  - destruct (s_full_name s); reflexivity.
  - rewrite bool_decide_eq_false_2 by exact O. reflexivity.
Qed.

(** X12. Reading a roll number from the directory built by [fetchStudents]
    gives the name of the last row of the answer that carries it (later
    rows overwrite earlier ones), and [undefined] when no row does;
    this for roll numbers other than the property names every object
    inherits, and an answer without the roll number [__proto__]. *)
Theorem fetchStudents_last_row_wins
    (db : store) (rows : list student_row) (r : string) :
  select_students db = StudentsAnswer (Some rows) None ->
  Forall (fun s => s_roll_no s <> "__proto__") rows ->
  r ∉ Object_prototype_names ->
  obj_get (fetchStudents (Some db)) r = name_of_row (last_row rows r).
Proof.
  intros A F O. unfold fetchStudents. rewrite A. cbn [default]. unfold id.
  destruct (fold_obj_set rows r empty_directory F) as [L P].
  unfold obj_get. rewrite L, P. cbn [empty_directory own proto_null negb andb].
  rewrite lookup_empty. unfold name_of_row.
  destruct (last_row rows r) as [s|].
  - destruct (s_full_name s); reflexivity.
  - rewrite bool_decide_eq_false_2 by exact O. reflexivity.
Qed.

Section Search.
Variable Date_getTime : option string -> option Z.

(** X13. With a directory fetched without error from rows none of which
    has the roll number "__proto__": a search for a non-empty roll
    number that is not a property name inherited from
    [Object.prototype] and that the directory does not list, or lists
    with a [null] or empty name, sets [studentInfo] to the name
    "Unknown" with "Student Not Enrolled" and asks the store for
    nothing. *)
Theorem search_unlisted_roll_asks_nothing
    (db : store) (rows : list student_row) (searchRoll : string)
    (previous : option student_info) :
  select_students db = StudentsAnswer (Some rows) None ->
  Forall (fun s => s_roll_no s <> "__proto__") rows ->
  searchRoll <> "" ->
  searchRoll ∉ Object_prototype_names ->
  value_truthy (name_of_row (last_row rows searchRoll)) = false ->
  onSearchStudent Date_getTime (Some db) (fetchStudents (Some db)) searchRoll previous
  = (Some {| info_roll_no := searchRoll;
             info_full_name := Str "Unknown";
             attendance_pct := "Student Not Enrolled" |}, []).
Proof.
  intros A F N O V. unfold onSearchStudent.
  destruct (String.eqb_spec searchRoll ""); [contradiction|].
  rewrite (fetchStudents_get db rows searchRoll A F O), V. reflexivity.
Qed.

(** X14. With a directory fetched without error from rows none of which
    has the roll number "__proto__": a search for a non-empty roll
    number that is not a property name inherited from
    [Object.prototype] and whose last directory row has a non-empty name
    asks the store once, for that roll number, and sets [studentInfo] to
    that name with the percentage computed by
    [calculateStudentAttendance]. *)
Theorem search_listed_roll_shows_attendance
    (db : store) (rows : list student_row) (searchRoll name : string)
    (s : student_row) (previous : option student_info) :
  select_students db = StudentsAnswer (Some rows) None ->
  Forall (fun s => s_roll_no s <> "__proto__") rows ->
  searchRoll <> "" ->
  searchRoll ∉ Object_prototype_names ->
  last_row rows searchRoll = Some s -> s_full_name s = Some name -> name <> "" ->
  onSearchStudent Date_getTime (Some db) (fetchStudents (Some db)) searchRoll previous
  = (Some {| info_roll_no := searchRoll;
             info_full_name := Str name;
             attendance_pct :=
               percentage (calculateStudentAttendance Date_getTime
                             (Some (select_attendance db)) searchRoll) |},
     [searchRoll]).
Proof.
  intros A F N O L Nm Ne. unfold onSearchStudent.
  destruct (String.eqb_spec searchRoll ""); [contradiction|].
  rewrite (fetchStudents_get db rows searchRoll A F O), L.
  unfold name_of_row. rewrite Nm. cbn [value_truthy].
  destruct (String.eqb_spec name ""); [contradiction|]. reflexivity.
Qed.

(** X15. A search for a name that every object inherits as a function
    ("constructor", "toString", ...: every inherited name but
    "__proto__") and that the directory does not list passes the
    enrolment test: the store is asked for the attendance rows of that
    name, and [studentInfo] ends with the inherited function as
    [full_name] and the percentage of [calculateStudentAttendance] as
    [attendance_pct]. *)
Theorem search_inherited_name_passes_as_enrolled
    (db : store) (map : directory) (searchRoll : string)
    (previous : option student_info) :
  proto_null map = false ->
  own map !! searchRoll = None ->
  searchRoll ∈ Object_prototype_names ->
  searchRoll <> "__proto__" ->
  onSearchStudent Date_getTime (Some db) map searchRoll previous
  = (Some {| info_roll_no := searchRoll;
             info_full_name := Inherited;
             attendance_pct :=
               percentage (calculateStudentAttendance Date_getTime
                             (Some (select_attendance db)) searchRoll) |},
     [searchRoll]).
Proof.
  intros P L O _. unfold onSearchStudent.
  assert (N : searchRoll <> "").
  { intros ->. revert O. vm_compute. intros O.
    repeat (apply elem_of_cons in O as [O|O]; [discriminate|]).
    apply elem_of_nil in O. exact O. }
  destruct (String.eqb_spec searchRoll ""); [contradiction|].
  unfold obj_get. rewrite L, P. cbn [negb andb].
  rewrite bool_decide_eq_true_2 by exact O. reflexivity.
Qed.

End Search.
End Directory.

(* ===================================================================== *)
(** ** The generative client: outcome, fetches and waits *)
(* ===================================================================== *)

Section GeminiOutcome.
Import GeminiApi.
Variable network : nat -> fetch_result.
Variables systemInstruction userQuery : string.

Local Abbreviation turn_at maxRetries attempt :=
  (try_catch (try_block network attempt systemInstruction userQuery)
             (catch_block maxRetries attempt)).

Lemma sleeps_snoc log e :
  sleeps (log ++ [e])%list = (sleeps log + (if is_sleep e then 1 else 0))%nat.
Proof.
  unfold sleeps. rewrite List.filter_app, length_app. cbn [List.filter].
  destruct (is_sleep e); reflexivity.
Qed.

Lemma rate_limited_unusable attempt :
  rate_limited network attempt = true -> usable_text network attempt = None.
Proof.
  unfold rate_limited, usable_text. destruct (network attempt) as [|r]; [reflexivity|].
  intros ->. reflexivity.
Qed.

(** A turn that neither yields a text nor is answered 429 ends in the
    [catch] block, after its single [fetch]. *)
Lemma turn_caught maxRetries attempt log :
  usable_text network attempt = None -> rate_limited network attempt = false ->
  turn_at maxRetries attempt log
  = if Nat.eqb attempt (maxRetries - 1)
    then (Normal (Return FAILED_AFTER_RETRIES),
          ((log ++ [Fetch attempt systemInstruction userQuery]) ++ [ConsoleError])%list)
    else (Normal NextAttempt,
          (((log ++ [Fetch attempt systemInstruction userQuery]) ++ [ConsoleError])
             ++ [SleepFixed])%list).
Proof.
  unfold usable_text, rate_limited.
  unfold try_catch, try_block, fetch, json, candidate_text.
  unfold bind, emit, ret, throw.
  destruct (network attempt) as [|r]; [intros _ _; apply catch_block_runs|].
  intros U RL. rewrite RL in U |- *. revert U.
  destruct (ok r); cbn [negb].
  - destruct (body r) as [| |[t'|]]; cbn [JsString.truthy];
      try (intros _; apply catch_block_runs).
    destruct (String.eqb t' ""); cbn [negb]; [intros _; apply catch_block_runs|discriminate].
  - intros _. destruct (body r); apply catch_block_runs.
Qed.

Lemma first_usable_range count : forall start i t,
  first_usable network start count = Some (i, t) ->
  (start <= i < start + count)%nat /\ usable_text network i = Some t.
Proof.
  induction count as [|k IH]; intros start i t H; [discriminate|].
  cbn [first_usable] in H. destruct (usable_text network start) as [t0|] eqn:U.
  - injection H as <- <-. split; [lia|exact U].
  - destruct (IH (S start) i t H) as [R V]. split; [lia|exact V].
Qed.

Lemma attempts_outcome maxRetries remaining : forall attempt log,
  (attempt + remaining = maxRetries)%nat ->
  (remaining = 0%nat ->
   maxRetries = 0%nat \/ rate_limited network (maxRetries - 1) = true) ->
  exists log',
    attempts network maxRetries remaining attempt systemInstruction userQuery log
    = (Normal (match first_usable network attempt remaining with
               | Some (_, t) => t
               | None =>
                   if Nat.eqb maxRetries 0 || rate_limited network (maxRetries - 1)
                   then FAILED else FAILED_AFTER_RETRIES
               end), log')
    /\ fetches log'
       = (fetches log
          + match first_usable network attempt remaining with
            | Some (i, _) => S i - attempt
            | None => remaining
            end)%nat
    /\ sleeps log'
       = (sleeps log
          + match first_usable network attempt remaining with
            | Some (i, _) => i - attempt
            | None =>
                if Nat.eqb maxRetries 0 || rate_limited network (maxRetries - 1)
                then remaining else remaining - 1
            end)%nat.
Proof.
  induction remaining as [|k IH]; intros attempt log Hsum Hzero.
  - exists log. cbn [attempts first_usable ret].
    destruct (Hzero eq_refl) as [-> | ->].
    + cbn. repeat split; lia.
    + rewrite orb_true_r. repeat split; lia.
  - cbn [attempts first_usable]. unfold bind at 1.
    destruct (usable_text network attempt) as [t|] eqn:U.
    + rewrite (turn_usable network systemInstruction userQuery maxRetries attempt t log U).
      eexists. split; [reflexivity|].
      rewrite fetches_snoc, sleeps_snoc. cbn [is_fetch is_sleep]. split; lia.
    + destruct (rate_limited network attempt) eqn:RL.
      * unfold rate_limited in RL. destruct (network attempt) as [|r] eqn:N;
          [discriminate|]. apply Z.eqb_eq in RL.
        rewrite (turn_rate_limited network systemInstruction userQuery
                   maxRetries attempt r log N RL).
        destruct (IH (S attempt)
                    (log ++ [Fetch attempt systemInstruction userQuery]
                         ++ [SleepBackoff attempt])%list ltac:(lia))
          as (log' & R & F & Sl).
        { intros ->. right. replace (maxRetries - 1)%nat with attempt by lia.
          unfold rate_limited. rewrite N. apply Z.eqb_eq, RL. }
        exists log'. split; [exact R|].
        rewrite F, Sl, !app_assoc, !fetches_snoc, !sleeps_snoc. cbn [is_fetch is_sleep].
        destruct (first_usable network (S attempt) k) as [[i t']|] eqn:FU.
        -- destruct (first_usable_range _ _ _ _ FU) as [Rg _]. split; lia.
        -- destruct (Nat.eqb maxRetries 0 || rate_limited network (maxRetries - 1)) eqn:C;
             [split; lia|].
           assert (k <> 0%nat).
           { intros ->. apply orb_false_iff in C as [_ C].
             replace (maxRetries - 1)%nat with attempt in C by lia.
             unfold rate_limited in C. rewrite N in C.
             apply Z.eqb_neq in C. contradiction. }
           split; lia.
      * rewrite (turn_caught maxRetries attempt log U RL).
        destruct (Nat.eqb_spec attempt (maxRetries - 1)) as [Last|NotLast].
        -- assert (k = 0%nat) by lia. subst k. cbn [first_usable].
           replace (maxRetries - 1)%nat with attempt by lia. rewrite RL.
           destruct (Nat.eqb_spec maxRetries 0); [lia|]. cbn [orb].
           eexists. split; [reflexivity|].
           rewrite !fetches_snoc, !sleeps_snoc. cbn [is_fetch is_sleep]. split; lia.
        -- destruct (IH (S attempt)
                       (((log ++ [Fetch attempt systemInstruction userQuery])
                           ++ [ConsoleError]) ++ [SleepFixed])%list ltac:(lia)
                       ltac:(lia))
             as (log' & R & F & Sl).
           exists log'. split; [exact R|].
           rewrite F, Sl, !fetches_snoc, !sleeps_snoc. cbn [is_fetch is_sleep].
           destruct (first_usable network (S attempt) k) as [[i t']|] eqn:FU.
           ++ destruct (first_usable_range _ _ _ _ FU) as [Rg _]. split; lia.
           ++ destruct (Nat.eqb maxRetries 0 || rate_limited network (maxRetries - 1));
                split; lia.
Qed.

Lemma generateContent_run (API_KEY : string) (maxRetries : nat) :
  API_KEY <> "" ->
  exists log,
    generateContent network API_KEY systemInstruction userQuery maxRetries []
    = (Normal (expected_reply network maxRetries), log)
    /\ fetches log = match first_usable network 0 maxRetries with
                     | Some (i, _) => S i
                     | None => maxRetries
                     end
    /\ sleeps log = match first_usable network 0 maxRetries with
                    | Some (i, _) => i
                    | None =>
                        if Nat.eqb maxRetries 0 || rate_limited network (maxRetries - 1)
                        then maxRetries else (maxRetries - 1)%nat
                    end.
Proof.
  intros K. unfold generateContent, expected_reply.
  destruct (String.eqb_spec API_KEY ""); [contradiction|].
  destruct (attempts_outcome maxRetries maxRetries 0 [] ltac:(lia) ltac:(intros; left; lia))
    as (log & R & F & Sl).
  exists log. split; [exact R|]. rewrite F, Sl. cbn [fetches sleeps List.filter length].
  destruct (first_usable network 0 maxRetries) as [[i t]|]; split; lia.
Qed.

(** X20. With an API key, the reply of [generateContent] is decided by the
    answers of the network alone: the text of the first attempt that
    carries one; otherwise the after-retries sentinel when the last
    attempt failed otherwise than by a 429, and the plain failure
    sentinel when it was answered 429 (or no attempt was allowed). It
    fetches once per attempt up to that point, never more than
    [maxRetries] times. *)
Theorem generateContent_outcome (API_KEY : string) (maxRetries : nat) :
  API_KEY <> "" ->
  exists log,
    generateContent network API_KEY systemInstruction userQuery maxRetries []
    = (Normal (expected_reply network maxRetries), log)
    /\ fetches log = match first_usable network 0 maxRetries with
                     | Some (i, _) => S i
                     | None => maxRetries
                     end
    /\ (fetches log <= maxRetries)%nat.
Proof.
  intros K. destruct (generateContent_run API_KEY maxRetries K) as (log & R & F & _).
  exists log. split; [exact R|split; [exact F|]]. rewrite F.
  destruct (first_usable network 0 maxRetries) as [[i t]|] eqn:FU; [|lia].
  destruct (first_usable_range _ _ _ _ FU) as [Rg _]. lia.
Qed.

(** X21. [generateContent] waits once after every failed attempt, except
    after a last attempt that threw; a 429 on the last attempt is still
    followed by its back-off wait before the failure is returned. *)
Theorem generateContent_waits (API_KEY : string) (maxRetries : nat) :
  API_KEY <> "" ->
  exists reply log,
    generateContent network API_KEY systemInstruction userQuery maxRetries []
    = (Normal reply, log)
    /\ sleeps log = match first_usable network 0 maxRetries with
                    | Some (i, _) => i
                    | None =>
                        if Nat.eqb maxRetries 0 || rate_limited network (maxRetries - 1)
                        then maxRetries else (maxRetries - 1)%nat
                    end.
Proof.
  intros K. destruct (generateContent_run API_KEY maxRetries K) as (log & R & _ & Sl).
  eexists _, log. split; [exact R|exact Sl].
Qed.

End GeminiOutcome.

Lemma generateContent_outcome_witness :
  exists log,
    GeminiApi.generateContent recovering "key" "role" "query" 3 []
    = (GeminiApi.Normal (expected_reply recovering 3), log)
    /\ fetches log = match first_usable recovering 0 3 with
                     | Some (i, _) => S i
                     | None => 3%nat
                     end
    /\ (fetches log <= 3)%nat.
Proof.
  apply (generateContent_outcome recovering "role" "query" "key" 3). discriminate.
Defined.

Lemma generateContent_waits_witness :
  exists reply log,
    GeminiApi.generateContent always_rate_limited "key" "role" "query" 3 []
    = (GeminiApi.Normal reply, log)
    /\ sleeps log = match first_usable always_rate_limited 0 3 with
                    | Some (i, _) => i
                    | None =>
                        if Nat.eqb 3 0 || rate_limited always_rate_limited (3 - 1)
                        then 3%nat else (3 - 1)%nat
                    end.
Proof.
  apply (generateContent_waits always_rate_limited "role" "query" "key" 3). discriminate.
Defined.

(* ===================================================================== *)
(** ** The translator: rules 1-3, labels, letter case *)
(* ===================================================================== *)

Section TranslatorRules.
Import RagAnalyzer.
Variable today : string.

(** X22. Whenever a query is built: the spoof filter is present exactly
    when a proxy keyword occurs, the null-roll filter exactly when an
    intruder keyword occurs, a roll-number filter exactly when an alias
    occurs and the directory lookup returned students (and then it lists
    their roll numbers, in order); at most four filters are chained. *)
Theorem translate_filters_follow_keywords
    (c : client) (q : string) (queryBuilder : list filter) (dataLabel : string) :
  fst (translate today c q) = Built queryBuilder dataLabel ->
  (In (Eq_bool "is_spoof" true) queryBuilder <-> asks_proxy q = true)
  /\ (In (Is_null "roll_no") queryBuilder <-> asks_intruder q = true)
  /\ ((exists ids, In (In_set "roll_no" ids) queryBuilder)
      <-> asks_alias q = true /\ alias_matches c q <> [])
  /\ (alias_matches c q <> [] -> asks_alias q = true ->
      In (In_set "roll_no" (map roll_no (alias_matches c q))) queryBuilder)
  /\ (length queryBuilder <= 4)%nat.
Proof.
  unfold translate, asks_proxy, asks_intruder, asks_alias, alias_matches.
  destruct (mentions q "ashraf");
    destruct (mentions q "mahaboob");
    cbn [orb andb];
    try (destruct (students_ilike c _) as [[|first rest]|]);
    destruct (mentions q "proxy"), (mentions q "proxies"),
             (mentions q "intruder"), (mentions q "intruders"),
             (mentions q "today");
    cbn [fst orb andb negb app template default];
    try discriminate;
    intros [= <- <-];
    (split; [|split; [|split; [|split]]]);
    try (cbn [length]; lia);
    try (split; intros H;
         solve [ reflexivity | discriminate | cbn [In]; auto 10
               | exfalso; cbn [In] in H; intuition discriminate ]);
    try (intros H1 H2; solve [ discriminate
                             | exfalso; apply H1; reflexivity
                             | cbn [In map]; auto 10 ]);
    try (split;
         [ intros [ids H]; solve [ split; [reflexivity|discriminate]
                                 | exfalso; cbn [In] in H; intuition discriminate ]
         | intros [H1 H2]; solve [ discriminate
                                 | exfalso; apply H2; reflexivity
                                 | eexists; cbn [In]; auto 10 ] ]).
Qed.

Lemma lower_char_idempotent (ch : ascii) :
  JsString.lower_char (JsString.lower_char ch) = JsString.lower_char ch.
Proof. destruct ch as [[] [] [] [] [] [] [] []]; reflexivity. Qed.

Lemma toLowerCase_idempotent (s : string) :
  JsString.toLowerCase (JsString.toLowerCase s) = JsString.toLowerCase s.
Proof.
  induction s as [|ch s IH]; [reflexivity|].
  cbn [JsString.toLowerCase]. rewrite lower_char_idempotent, IH. reflexivity.
Qed.

Lemma mentions_lower (q word : string) :
  mentions (JsString.toLowerCase q) word = mentions q word.
Proof. unfold mentions. rewrite toLowerCase_idempotent. reflexivity. Qed.

(** X23. The translation does not depend on the letter case of the question:
    a question and its lower-case form are translated alike, with the
    same directory lookup. *)
Theorem translate_ignores_letter_case (c : client) (q : string) :
  translate today c (JsString.toLowerCase q) = translate today c q.
Proof. unfold translate. rewrite !mentions_lower. reflexivity. Qed.

Lemma startsWith_app (p x : string) : forall s,
  JsString.startsWith (p +:+ x) s = true -> JsString.startsWith p s = true.
Proof.
  induction p as [|a p IH]; intros s H; [reflexivity|].
  rewrite append_cons in H. destruct s as [|b s]; [discriminate|].
  cbn [JsString.startsWith] in *. destruct (Ascii.eqb a b); [apply IH, H|discriminate].
Qed.

Lemma includes_app (p x : string) (s : string) :
  JsString.includes s (p +:+ x) = true -> JsString.includes s p = true.
Proof.
  induction s as [|b s IH]; cbn [JsString.includes]; intros H.
  - apply orb_true_iff in H as [H|H]; [|discriminate].
    rewrite (startsWith_app p x _ H). reflexivity.
  - apply orb_true_iff in H as [H|H].
    + rewrite (startsWith_app p x _ H). reflexivity.
    + rewrite (IH H). apply orb_true_r.
Qed.

(** X24. The second test of the intruder rule can never decide: a question
    that mentions "intruders" mentions "intruder", so the rule fires
    exactly when "intruder" occurs. *)
Theorem intruders_test_is_redundant (q : string) :
  asks_intruder q = mentions q "intruder".
Proof.
  unfold asks_intruder. destruct (mentions q "intruder") eqn:A; [reflexivity|].
  destruct (mentions q "intruders") eqn:B; [|reflexivity].
  unfold mentions in A, B.
  rewrite (includes_app "intruder" "s" _ B) in A. discriminate.
Qed.

End TranslatorRules.

(* ===================================================================== *)
(** ** The assistant pipeline: replies and actions *)
(* ===================================================================== *)

Section PipelineActions.
Import GeminiApi RagAnalyzer.
Variable today : string.
Variable JSON_stringify : list App.log -> string.
Variable generateContent : string -> string -> completion string.

Local Abbreviation run c q :=
  (runRAGAnalysis today JSON_stringify generateContent (Some c) q).

Lemma translate_actions (c : client) (q : string) :
  List.filter is_call (snd (translate today c q)) = []
  /\ List.filter is_select_logs (snd (translate today c q)) = [].
Proof.
  unfold translate.
  destruct (mentions q "ashraf" || mentions q "mahaboob");
    destruct (mentions q "proxy" || mentions q "proxies");
    destruct (mentions q "intruder" || mentions q "intruders");
    try destruct (students_ilike c _) as [[|first rest]|];
    split; reflexivity.
Qed.

(** X25. The generative client is called exactly when a query was built and
    the store answered it with at least one row and no error; it is
    called at most once, after at most one log query. *)
Theorem generative_client_called_iff_rows (c : client) (q : string) :
  (calls_generateContent (snd (run c q)) = true
   <-> exists queryBuilder dataLabel row rows,
         fst (translate today c q) = Built queryBuilder dataLabel
         /\ logs_select c queryBuilder = (Some (row :: rows), None))
  /\ (length (List.filter is_call (snd (run c q))) <= 1)%nat
  /\ (length (List.filter is_select_logs (snd (run c q))) <= 1)%nat.
Proof.
  unfold runRAGAnalysis.
  destruct (translate_actions c q) as [TC TL].
  destruct (translate today c q) as [[reply|qb label] acts]; cbn [fst snd] in *.
  - unfold calls_generateContent. fold is_call.
    assert (E : existsb is_call acts = false).
    { clear -TC. induction acts as [|a acts IH]; [reflexivity|].
      cbn [List.filter existsb] in *. destruct (is_call a); [discriminate|]. apply IH, TC. }
    change (existsb _ acts) with (existsb is_call acts).
    rewrite E, TC, TL. repeat split; try (cbn; lia); try discriminate.
    intros (? & ? & ? & ? & D & _). discriminate.
  - unfold retrieve_and_generate.
    assert (E : forall extra, existsb is_call (acts ++ extra)%list = existsb is_call extra).
    { intros extra. rewrite existsb_app.
      replace (existsb is_call acts) with false; [reflexivity|].
      clear -TC. induction acts as [|a acts IH]; [reflexivity|].
      cbn [List.filter existsb] in *. destruct (is_call a); [discriminate|]. apply IH, TC. }
    unfold calls_generateContent.
    destruct (logs_select c qb) as [[[|row rows]|] [e|]] eqn:L; cbn [fst snd];
      change (existsb _ (acts ++ ?x)%list) with (existsb is_call (acts ++ x)%list);
      rewrite E, !List.filter_app, TC, TL; cbn [existsb is_call List.filter is_select_logs
                                                 app length orb];
      (split; [|split; lia]); split; try discriminate;
      try (intros (qb' & l' & r' & rs' & [= <- <-] & D); rewrite L in D; discriminate).
    + intros _. exists qb, label, row, rows. split; [reflexivity|exact L].
    + intros _. reflexivity.
Qed.

Lemma reply_prefix (c : client) (q : string) :
  match fst (run c q) with
  | Normal reply => JsString.startsWith "AI Assistant: " reply = true
  | Throw _ => True
  end.
Proof.
  unfold runRAGAnalysis, translate, not_found_reply, retrieve_and_generate.
  destruct (mentions q "ashraf" || mentions q "mahaboob");
    destruct (mentions q "proxy" || mentions q "proxies");
    destruct (mentions q "intruder" || mentions q "intruders");
    try destruct (students_ilike c _) as [[|first rest]|];
    cbn [negb orb];
    try destruct (mentions q "today");
    cbn [fst snd];
    try reflexivity;
    match goal with
    | |- context [logs_select c ?qb] =>
        destruct (logs_select c qb) as [[[|row rows]|] [e|]]
    end;
    cbn [fst snd]; try reflexivity;
    match goal with
    | |- context [generateContent ?a ?b] => destruct (generateContent a b)
    end; cbn [fst]; try reflexivity; exact I.
Qed.

(** X26. With a store client, every reply that comes back starts with
    "AI Assistant: ". *)
Theorem replies_carry_the_assistant_prefix (c : client) (q : string) :
  match fst (run c q) with
  | Normal reply => JsString.startsWith "AI Assistant: " reply = true
  | Throw _ => True
  end.
Proof.
  unfold runRAGAnalysis, translate, not_found_reply, retrieve_and_generate.
  destruct (mentions q "ashraf" || mentions q "mahaboob");
    destruct (mentions q "proxy" || mentions q "proxies");
    destruct (mentions q "intruder" || mentions q "intruders");
    try destruct (students_ilike c _) as [[|first rest]|];
    cbn [negb orb];
    try destruct (mentions q "today");
    cbn [fst snd];
    try reflexivity;
    match goal with
    | |- context [logs_select c ?qb] =>
        destruct (logs_select c qb) as [[[|row rows]|] [e|]]
    end;
    cbn [fst snd]; try reflexivity;
    match goal with
    | |- context [generateContent ?a ?b] => destruct (generateContent a b)
    end; cbn [fst]; try reflexivity; exact I.
Qed.

End PipelineActions.

Section AssistantSend.
Import GeminiApi AppComponent.
Variable network : nat -> fetch_result.
Variables API_KEY today : string.
Variable JSON_stringify : list App.log -> string.

Lemma wired_pipeline_returns (c : RagAnalyzer.client) (q : string) :
  exists reply,
    fst (RagAnalyzer.runRAGAnalysis today JSON_stringify
           (wired_generateContent network API_KEY) (Some c) q) = Normal reply.
Proof.
  unfold RagAnalyzer.runRAGAnalysis.
  destruct (RagAnalyzer.translate today c q) as [[reply|qb label] acts];
    [eexists; reflexivity|].
  unfold RagAnalyzer.retrieve_and_generate.
  destruct (RagAnalyzer.logs_select c qb) as [[[|r rows]|] [e|]];
    try (eexists; reflexivity).
  unfold wired_generateContent.
  match goal with
  | |- context [generateContent ?n ?k ?s ?u ?m ?l] =>
      destruct (generateContent_normal n s u k m l) as (text & log' & ->)
  end.
  eexists. reflexivity.
Qed.

(** X28. A send that passes the guard, wired to the real client, with a
    store whose reads resolve (with rows or with an error) and never
    reject: whatever the store and the network answer, it ends with the
    gate released, the question cleared and a response that starts with
    "AI Assistant: "; the error text of the [catch] block is never
    shown. *)
Theorem assistant_send_completes (db : store) (st : assistant) :
  assistantQuery st <> "" -> isLoadingAI st = false ->
  let done := fst (onAssistantSend today JSON_stringify
                     (wired_generateContent network API_KEY) (Some db) st) in
  isLoadingAI done = false
  /\ assistantQuery done = ""
  /\ JsString.startsWith "AI Assistant: " (assistantResponse done) = true
  /\ assistantResponse done <> "Error processing AI request.".
Proof.
  intros Q G done. unfold done, onAssistantSend, onAssistantSend_begin.
  destruct (String.eqb_spec (assistantQuery st) ""); [contradiction|].
  rewrite G. cbn [orb option_map].
  pose proof (reply_prefix today JSON_stringify (wired_generateContent network API_KEY)
                (rag_client db) (assistantQuery st)) as P.
  destruct (wired_pipeline_returns (rag_client db) (assistantQuery st)) as [reply R].
  destruct (RagAnalyzer.runRAGAnalysis _ _ _ _ _) as [result acts].
  cbn [fst] in *. subst result. cbn [fst isLoadingAI assistantQuery assistantResponse].
  repeat split; [exact P|].
  intros ->. discriminate.
Qed.

(** X29. A send is a no-op (no state change, no action) when the question is
    empty, when another send is in flight, or when there is no store
    client; and a send that starts takes the gate, so that a second send
    before it completes is such a no-op. *)
Theorem assistant_send_is_gated
    (generate : string -> string -> completion string)
    (supabase : option store) (st : assistant) :
  (assistantQuery st = "" \/ isLoadingAI st = true \/ supabase = None ->
   onAssistantSend today JSON_stringify generate supabase st = (st, []))
  /\ (forall started,
        onAssistantSend_begin supabase st = Some started ->
        isLoadingAI started = true
        /\ onAssistantSend today JSON_stringify generate supabase started = (started, [])).
Proof.
  split.
  - intros H. unfold onAssistantSend, onAssistantSend_begin.
    destruct H as [-> | [-> | ->]].
    + reflexivity.
    + rewrite orb_true_r. reflexivity.
    + destruct (_ || _); reflexivity.
  - intros started B. unfold onAssistantSend_begin in B.
    destruct (_ || _); [discriminate|].
    destruct supabase; [|discriminate]. injection B as <-.
    split; [reflexivity|].
    unfold onAssistantSend, onAssistantSend_begin. cbn [isLoadingAI].
    rewrite orb_true_r. reflexivity.
Qed.

End AssistantSend.

Lemma assistant_send_completes_witness :
  let st := {| AppComponent.assistantQuery := "how many proxies today";
               AppComponent.assistantResponse := "";
               AppComponent.isLoadingAI := false |} in
  let done := fst (AppComponent.onAssistantSend "2025-03-01" sample_stringify
                     (wired_generateContent recovering "key") (Some sample_store) st) in
  AppComponent.isLoadingAI done = false
  /\ AppComponent.assistantQuery done = ""
  /\ JsString.startsWith "AI Assistant: " (AppComponent.assistantResponse done) = true
  /\ AppComponent.assistantResponse done <> "Error processing AI request.".
Proof.
  apply (assistant_send_completes recovering "key" "2025-03-01" sample_stringify
           sample_store).
  - discriminate.
  - reflexivity.
Defined.

(* ===================================================================== *)
(** ** Attendance: display accuracy, the cap, unparsable timestamps *)
(* ===================================================================== *)

Section AttendanceDisplay.
Import App.
Variable Date_getTime : option string -> option Z.

Local Abbreviation total logs := (totalDurationMinutes (pair_logs Date_getTime logs)).

Lemma floor_bounds (x : Q) : (inject_Z (Qfloor x) <= x)%Q /\ (x < inject_Z (Qfloor x) + 1)%Q.
Proof.
  split; [apply Qfloor_le|].
  pose proof (Qlt_floor x) as H. rewrite inject_Z_plus in H. exact H.
Qed.

Lemma display_accuracy (x : Q) :
  (0 <= x)%Q ->
  let hours := Qfloor (x / 60)%Q in
  let minutes := Math_round (js_rem x 60) in
  0 <= hours /\ 0 <= minutes <= 60
  /\ (inject_Z (60 * hours + minutes) - x <= 1 # 2)%Q
  /\ (x - inject_Z (60 * hours + minutes) < 1 # 2)%Q.
Proof.
  intros H hours minutes.
  assert (Hq : (0 <= x / 60)%Q).
  { unfold Qdiv. apply Qmult_le_0_compat; [exact H|discriminate]. }
  assert (R : js_rem x 60 = (x - 60 * inject_Z hours)%Q).
  { unfold js_rem. rewrite (proj2 (Qle_bool_iff 0 (x / 60)) Hq). reflexivity. }
  destruct (floor_bounds (x / 60)) as [F1 F2]. fold hours in F1, F2.
  destruct (floor_bounds (js_rem x 60 + (1 # 2))) as [M1 M2].
  fold (Math_round (js_rem x 60)) in M1, M2. fold minutes in M1, M2.
  rewrite R in M1, M2.
  assert (X : (x == 60 * (x / 60))%Q) by (field).
  assert (Hh : (0 <= inject_Z hours)%Q).
  { change 0%Q with (inject_Z 0). rewrite <- Zle_Qle. unfold hours.
    change 0 with (Qfloor 0). apply Qfloor_resp_le, Hq. }
  assert (Lo : (60 * inject_Z hours <= x)%Q) by lra.
  assert (Hi : (x < 60 * inject_Z hours + 60)%Q) by lra.
  assert (Mlo : (-1 < inject_Z minutes)%Q) by lra.
  assert (Mhi : (inject_Z minutes < 61)%Q) by lra.
  change (-1)%Q with (inject_Z (-1)) in Mlo. rewrite <- Zlt_Qlt in Mlo.
  change 61%Q with (inject_Z 61) in Mhi. rewrite <- Zlt_Qlt in Mhi.
  change 0%Q with (inject_Z 0) in Hh. rewrite <- Zle_Qle in Hh.
  split; [exact Hh|split; [lia|]].
  rewrite inject_Z_plus, inject_Z_mult. change (inject_Z 60) with 60%Q.
  split; lra.
Qed.

(** X16. The duration shown is within half a minute of the accumulated total:
    with [h] the hours and [m] the minutes printed, [m] lies between 0
    and 60 (60 included) and [60 h + m] differs from the total by at most
    one half. *)
Theorem duration_shown_within_half_minute (logs : list log) :
  let hours := Qfloor (total logs / 60)%Q in
  let minutes := Math_round (js_rem (total logs) 60) in
  durationString (total logs)
    = JsString.of_Z hours +:+ "h " +:+ JsString.of_Z minutes +:+ "m"
  /\ 0 <= hours /\ 0 <= minutes <= 60
  /\ (inject_Z (60 * hours + minutes) - total logs <= 1 # 2)%Q
  /\ (total logs - inject_Z (60 * hours + minutes) < 1 # 2)%Q.
Proof.
  intros hours minutes. split; [reflexivity|].
  apply display_accuracy, total_nonneg.
Qed.

Lemma tenths_comp (x y : Q) : (x == y)%Q -> tenths x = tenths y.
Proof. intros E. unfold tenths. rewrite E. reflexivity. Qed.

(** X17. From 480 accumulated minutes on, the percentage shown is "100.0%". *)
Theorem percentage_caps_at_100 (logs : list log) :
  (480 <= total logs)%Q ->
  percentage (summarize Date_getTime logs) = "100.0%".
Proof.
  intros H. unfold summarize. cbn [percentage].
  assert (E : (percentage_value (total logs) == 100)%Q).
  { unfold percentage_value, TOTAL_SCHEDULED_MINUTES. apply Q.min_l.
    assert (X : (total logs == 480 * (total logs / 480))%Q) by field. lra. }
  unfold toFixed1. rewrite (tenths_comp _ _ E). reflexivity.
Qed.

Lemma frozen_state (more : list log) : forall st,
  entryTime st = Some None -> fold_left (pairing_step Date_getTime) more st = st.
Proof.
  induction more as [|l more IH]; intros st H; [reflexivity|].
  cbn [fold_left].
  assert (S1 : pairing_step Date_getTime st l = st).
  { unfold pairing_step. rewrite H.
    destruct (String.eqb (event_type l) "ENTRY"); [reflexivity|].
    destruct (String.eqb (event_type l) "EXIT"); reflexivity. }
  rewrite S1. apply IH, H.
Qed.

(** X18. An ENTRY whose timestamp does not parse, met while no entry is open,
    becomes an open entry that no EXIT can close: nothing that follows
    it in the history is counted. *)
Theorem unparsable_entry_freezes_total (logs more : list log) (bad : log) :
  entryTime (pair_logs Date_getTime logs) = None ->
  event_type bad = "ENTRY" ->
  Date_getTime (timestamp bad) = None ->
  total (logs ++ bad :: more)%list = total logs.
Proof.
  intros Open E T. unfold pair_logs. rewrite fold_left_app. cbn [fold_left].
  fold (pair_logs Date_getTime logs).
  rewrite (entry_opens Date_getTime _ bad E Open), T.
  rewrite frozen_state by reflexivity. reflexivity.
Qed.

End AttendanceDisplay.

(* ===================================================================== *)
(** ** Worked instances *)
(* ===================================================================== *)

(** One ENTRY already loaded, one EXIT notified: the running sum never
    goes negative and the live occupancy is the batch occupancy. *)
Lemma live_occupancy_matches_batch_witness :
  snd (fold_left App.on_insert [row "21" "EXIT" "t2"]
         ([], App.computeOccupancyFromLogs [row "21" "ENTRY" "t1"]))
  = App.computeOccupancyFromLogs ([row "21" "ENTRY" "t1"] ++ [row "21" "EXIT" "t2"])%list.
Proof.
  apply (live_occupancy_matches_batch [row "21" "EXIT" "t2"] [row "21" "ENTRY" "t1"] []).
  intros [|[|n]]; vm_compute; discriminate.
Defined.

(** 101 notifications after a load that left one row in both buffers:
    67 of the notified rows pass the vault test, so both buffers fill up
    and evict; the loaded row is gone from both, the event buffer starts
    with the last notified row and the vault with the last admitted one. *)
Lemma buffers_keep_newest_witness :
  let st := AppComponent.run [AppComponent.Loaded (Some zero_roll_store) true] in
  let after := fold_left AppComponent.on_notification notified st in
  (notified <> [] /\ (length (AppComponent.gallery st) <= 8)%nat)
  /\ (AppComponent.events after
       = take 100 (rev notified ++ AppComponent.events st)%list
      /\ AppComponent.gallery after
         = take 8 (rev (List.filter AppComponent.live_admits notified)
                     ++ AppComponent.gallery st)%list
      /\ (length (AppComponent.events after) <= 100)%nat
      /\ (length (AppComponent.gallery after) <= 8)%nat)
  /\ (AppComponent.events st = [zero_roll_row]
      /\ AppComponent.gallery st = [zero_roll_row]
      /\ length notified = 101%nat
      /\ length (List.filter AppComponent.live_admits notified) = 67%nat
      /\ AppComponent.events after = rev (List.map notified_row (seq 1 100))
      /\ AppComponent.gallery after
         = List.map notified_row [100; 98; 97; 95; 94; 92; 91; 89]%nat).
Proof.
  split; [split; [discriminate|vm_compute; lia]|split].
  - apply (buffers_keep_newest
             (AppComponent.run [AppComponent.Loaded (Some zero_roll_store) true])
             notified).
    + discriminate.
    + vm_compute. lia.
  - vm_compute. repeat split; reflexivity.
Defined.

(** Three sightings, two of them with the same timestamp: two threats. *)
Lemma threat_count_is_distinct_keys_witness :
  let logs := [anonymous "ENTRY" (Some "t1"); anonymous "ENTRY" (Some "t1");
               anonymous "ENTRY" (Some "t2")] in
  App.intruderCount (App.computeUniqueInAndIntruders (fun n => N.of_nat n) logs)
  = size (list_to_set
            (map (fun ev => inl (string_key ev))
                 (filter (fun ev => App.hasRoll ev = false /\ App.event_type ev = "ENTRY")
                         logs))
          : gset App.key).
Proof.
  apply (threat_count_is_distinct_keys (fun n => N.of_nat n)
           [anonymous "ENTRY" (Some "t1"); anonymous "ENTRY" (Some "t1");
            anonymous "ENTRY" (Some "t2")]).
  repeat constructor; intros _ _; right; reflexivity.
Defined.

(** Roll number 21 is listed twice: the later name is the one read. *)
Lemma fetchStudents_last_row_wins_witness :
  AppComponent.obj_get (AppComponent.fetchStudents (Some sample_store)) "21"
  = AppComponent.Str "Ashraf Khan".
Proof.
  apply (fetchStudents_last_row_wins sample_store
           [ {| AppComponent.s_roll_no := "21"; AppComponent.s_full_name := Some "A. Khan" |};
             {| AppComponent.s_roll_no := "22"; AppComponent.s_full_name := Some "" |};
             {| AppComponent.s_roll_no := "21";
                AppComponent.s_full_name := Some "Ashraf Khan" |} ] "21").
  - reflexivity.
  - repeat constructor; discriminate.
  - refine (bool_decide_eq_false_1 _ _). vm_compute. reflexivity.
Defined.

(** Roll number 22 is listed with an empty name: not enrolled. *)
Lemma search_unlisted_roll_asks_nothing_witness :
  AppComponent.onSearchStudent sample_getTime (Some sample_store)
    (AppComponent.fetchStudents (Some sample_store)) "22" None
  = (Some {| AppComponent.info_roll_no := "22";
             AppComponent.info_full_name := AppComponent.Str "Unknown";
             AppComponent.attendance_pct := "Student Not Enrolled" |}, []).
Proof.
  apply (search_unlisted_roll_asks_nothing sample_getTime sample_store
           [ {| AppComponent.s_roll_no := "21"; AppComponent.s_full_name := Some "A. Khan" |};
             {| AppComponent.s_roll_no := "22"; AppComponent.s_full_name := Some "" |};
             {| AppComponent.s_roll_no := "21";
                AppComponent.s_full_name := Some "Ashraf Khan" |} ] "22" None).
  - reflexivity.
  - repeat constructor; discriminate.
  - discriminate.
  - refine (bool_decide_eq_false_1 _ _). vm_compute. reflexivity.
  - reflexivity.
Defined.

Lemma search_listed_roll_shows_attendance_witness :
  AppComponent.onSearchStudent sample_getTime (Some sample_store)
    (AppComponent.fetchStudents (Some sample_store)) "21" None
  = (Some {| AppComponent.info_roll_no := "21";
             AppComponent.info_full_name := AppComponent.Str "Ashraf Khan";
             AppComponent.attendance_pct :=
               App.percentage
                 (App.calculateStudentAttendance sample_getTime
                    (Some (AppComponent.select_attendance sample_store)) "21") |},
     ["21"]).
Proof.
  apply (search_listed_roll_shows_attendance sample_getTime sample_store
           [ {| AppComponent.s_roll_no := "21"; AppComponent.s_full_name := Some "A. Khan" |};
             {| AppComponent.s_roll_no := "22"; AppComponent.s_full_name := Some "" |};
             {| AppComponent.s_roll_no := "21";
                AppComponent.s_full_name := Some "Ashraf Khan" |} ]
           "21" "Ashraf Khan"
           {| AppComponent.s_roll_no := "21";
              AppComponent.s_full_name := Some "Ashraf Khan" |} None).
  - reflexivity.
  - repeat constructor; discriminate.
  - discriminate.
  - refine (bool_decide_eq_false_1 _ _). vm_compute. reflexivity.
  - reflexivity.
  - reflexivity.
  - discriminate.
Defined.

Lemma search_inherited_name_passes_as_enrolled_witness :
  AppComponent.onSearchStudent sample_getTime (Some sample_store)
    (AppComponent.fetchStudents (Some sample_store)) "constructor" None
  = (Some {| AppComponent.info_roll_no := "constructor";
             AppComponent.info_full_name := AppComponent.Inherited;
             AppComponent.attendance_pct :=
               App.percentage
                 (App.calculateStudentAttendance sample_getTime
                    (Some (AppComponent.select_attendance sample_store)) "constructor") |},
     ["constructor"]).
Proof.
  apply (search_inherited_name_passes_as_enrolled sample_getTime sample_store
           (AppComponent.fetchStudents (Some sample_store)) "constructor" None).
  - reflexivity.
  - reflexivity.
  - refine (bool_decide_eq_true_1 _ _). vm_compute. reflexivity.
  - discriminate.
Defined.

Lemma translate_filters_follow_keywords_witness :
  let q := "any proxies or intruders today" in
  let queryBuilder := [RagAnalyzer.Eq_bool "is_spoof" true; RagAnalyzer.Is_null "roll_no";
                       RagAnalyzer.Gte "timestamp" "2025-03-01"] in
  (In (RagAnalyzer.Eq_bool "is_spoof" true) queryBuilder <-> asks_proxy q = true)
  /\ (In (RagAnalyzer.Is_null "roll_no") queryBuilder <-> asks_intruder q = true)
  /\ ((exists ids, In (RagAnalyzer.In_set "roll_no" ids) queryBuilder)
      <-> asks_alias q = true /\ alias_matches empty_store q <> [])
  /\ (alias_matches empty_store q <> [] -> asks_alias q = true ->
      In (RagAnalyzer.In_set "roll_no"
            (map RagAnalyzer.roll_no (alias_matches empty_store q))) queryBuilder)
  /\ (length queryBuilder <= 4)%nat.
Proof.
  apply (translate_filters_follow_keywords "2025-03-01" empty_store
           "any proxies or intruders today"
           [RagAnalyzer.Eq_bool "is_spoof" true; RagAnalyzer.Is_null "roll_no";
            RagAnalyzer.Gte "timestamp" "2025-03-01"]
           "Intruder Sightings (Today)").
  reflexivity.
Defined.

(** 09:00 to 17:00 is 480 minutes: "100.0%". *)
Lemma percentage_caps_at_100_witness :
  App.percentage
    (App.summarize sample_getTime
       [row "21" "ENTRY" "2025-03-01T09:00:00Z"; row "21" "EXIT" "2025-03-01T17:00:00Z"])
  = "100.0%".
Proof.
  apply (percentage_caps_at_100 sample_getTime
           [row "21" "ENTRY" "2025-03-01T09:00:00Z"; row "21" "EXIT" "2025-03-01T17:00:00Z"]).
  vm_compute. discriminate.
Defined.

(** An ENTRY with an unreadable timestamp, then a full day: nothing is
    counted. *)
Lemma unparsable_entry_freezes_total_witness :
  App.totalDurationMinutes
    (App.pair_logs sample_getTime
       ([] ++ row "21" "ENTRY" "not a date"
           :: [row "21" "ENTRY" "2025-03-01T09:00:00Z";
               row "21" "EXIT" "2025-03-01T17:00:00Z"])%list)
  = App.totalDurationMinutes (App.pair_logs sample_getTime []).
Proof.
  apply (unparsable_entry_freezes_total sample_getTime []
           [row "21" "ENTRY" "2025-03-01T09:00:00Z"; row "21" "EXIT" "2025-03-01T17:00:00Z"]
           (row "21" "ENTRY" "not a date")).
  - reflexivity.
  - reflexivity.
  - reflexivity.
Defined.
